(** * simple_jdbc: a read-only JDBC gateway

    Shallow embedding of [simple_jdbc.py]: the argument models with their
    validators, [JdbcClient] and the three tool handlers, followed by the
    properties of the specification that the code is checked against.

    Text is [string]; a character stands for a code point in U+0000..U+00FF.
    The database driver (jaydebeapi and the JDBC driver behind it) and the
    file system are not part of the program: they are an environment the
    program calls into, and every call is recorded in a trace. *)

From Stdlib Require Import String Ascii List ZArith NArith Bool Lia.
Import ListNotations.
Open Scope string_scope.

(** ** Python string methods used by the validators *)

Module PyStr.

(** [str.isspace] on one character, for the code points below U+0100:
    U+0009..U+000D, U+001C..U+0020, U+0085 and U+00A0. *)
Definition isspace (c : ascii) : bool :=
  let n := N_of_ascii c in
  (((9 <=? n) && (n <=? 13)) || ((28 <=? n) && (n <=? 32))
   || (n =? 133) || (n =? 160))%N.

Fixpoint lstrip (s : string) : string :=
  match s with
  | EmptyString => EmptyString
  | String c s' => if isspace c then lstrip s' else s
  end.

Fixpoint rstrip (s : string) : string :=
  match s with
  | EmptyString => EmptyString
  | String c s' =>
      match rstrip s' with
      | EmptyString => if isspace c then EmptyString else String c EmptyString
      | r => String c r
      end
  end.

(** [str.strip()] with no argument. *)
Definition strip (s : string) : string := rstrip (lstrip s).

(** [str.upper] on one character.  The small letters a..z and U+00E0..U+00FE
    (U+00F7 is the division sign) move down by 32; U+00DF becomes "SS".
    U+00B5 and U+00FF have their capitals above U+00FF and are left as they
    are, which no comparison with an ASCII literal can tell apart. *)
Definition upper_char (c : ascii) : string :=
  let n := N_of_ascii c in
  if (((97 <=? n) && (n <=? 122))
      || ((224 <=? n) && (n <=? 254) && negb (n =? 247)))%N
  then String (ascii_of_N (n - 32)) EmptyString
  else if (n =? 223)%N then "SS"
  else String c EmptyString.

Fixpoint upper (s : string) : string :=
  match s with
  | EmptyString => EmptyString
  | String c s' => upper_char c ++ upper s'
  end.

(** [s.startswith(p)]. *)
Definition startswith (s p : string) : bool := String.prefix p s.

(** Truth value of a string: [not v] holds for the empty string only. *)
Definition truthy (s : string) : bool :=
  match s with EmptyString => false | _ => true end.

End PyStr.

(** ** Exceptions *)

(** One entry of a pydantic validation error: the field and what failed. *)
Inductive field_problem :=
  | FieldRequired
  | WrongType
  | ValueErrorRaised (msg : string)
  | NotGreaterEqual (bound : Z)
  | NotLessEqual (bound : Z).

Definition field_error : Type := string * field_problem.

Inductive exn :=
  | ValueError (msg : string)
  | ValidationError (model : string) (errors : list field_error)
  | JdbcError (msg : string)
  | TypeError (msg : string)
  | AttributeError (msg : string)
  | NameError (msg : string)
  | DriverError (msg : string).

(** ** Argument models *)

(** A key of the [arguments] dictionary as pydantic sees it: absent, holding
    a value of the field's type, or holding something it cannot coerce. *)
Inductive arg (A : Type) :=
  | Missing
  | Given (a : A)
  | Unusable.
Arguments Missing {A}.
Arguments Given {A} a.
Arguments Unusable {A}.

Record JdbcConfig := {
  jdbc_url : string;
  jdbc_driver : string;
  jdbc_driver_path : string;
  username : string;
  password : string
}.

Record QueryArgs := { query : string; max_rows : Z }.

Record GetTablesArgs := { gt_schema : option string; include_system : bool }.

Record GetColumnsArgs := { table_name : string; gc_schema : option string }.

(** [QueryArgs.validate_query]: [inl] is the raised [ValueError]. *)
Definition validate_query (v : string) : string + string :=
  if negb (PyStr.truthy v) || negb (PyStr.truthy (PyStr.strip v)) then
    inl "Query cannot be empty"
  else
    let cleaned_query := PyStr.upper (PyStr.strip v) in
    if negb (PyStr.startswith cleaned_query "SELECT") then
      inl "Only SELECT queries are allowed for security reasons"
    else inr (PyStr.strip v).

(** [GetColumnsArgs.validate_table_name]. *)
Definition validate_table_name (v : string) : string + string :=
  if negb (PyStr.truthy v) || negb (PyStr.truthy (PyStr.strip v)) then
    inl "Table name cannot be empty"
  else inr (PyStr.strip v).

(** A required string field with an "after" validator. *)
Definition validated_field (name : string) (validator : string -> string + string)
    (a : arg string) : list field_error + string :=
  match a with
  | Missing => inl [(name, FieldRequired)]
  | Unusable => inl [(name, WrongType)]
  | Given v =>
      match validator v with
      | inl msg => inl [(name, ValueErrorRaised msg)]
      | inr v' => inr v'
      end
  end.

(** [max_rows: int = Field(default=100, ge=1, le=1000)]. *)
Definition max_rows_field (a : arg Z) : list field_error + Z :=
  match a with
  | Missing => inr 100%Z
  | Unusable => inl [("max_rows", WrongType)]
  | Given n =>
      if negb (1 <=? n)%Z then inl [("max_rows", NotGreaterEqual 1)]
      else if negb (n <=? 1000)%Z then inl [("max_rows", NotLessEqual 1000)]
      else inr n
  end.

(** An optional field with a default. *)
Definition defaulted_field {A : Type} (name : string) (default : A)
    (a : arg A) : list field_error + A :=
  match a with
  | Missing => inr default
  | Unusable => inl [(name, WrongType)]
  | Given v => inr v
  end.

Definition problems {A : Type} (r : list field_error + A) : list field_error :=
  match r with inl l => l | inr _ => [] end.

Record query_arguments := { arg_query : arg string; arg_max_rows : arg Z }.

Record tables_arguments := {
  arg_schema : arg (option string);
  arg_include_system : arg bool
}.

Record columns_arguments := {
  arg_table_name : arg string;
  arg_columns_schema : arg (option string)
}.

(** Building [QueryArgs] from the [arguments] dictionary: pydantic validates
    every field and raises one [ValidationError] that lists all the failures. *)
Definition QueryArgs_new (a : query_arguments) : exn + QueryArgs :=
  let q := validated_field "query" validate_query (arg_query a) in
  let m := max_rows_field (arg_max_rows a) in
  match q, m with
  | inr q', inr m' => inr {| query := q'; max_rows := m' |}
  | _, _ => inl (ValidationError "QueryArgs" (problems q ++ problems m))
  end.

Definition GetTablesArgs_new (a : tables_arguments) : exn + GetTablesArgs :=
  let s := defaulted_field "schema" None (arg_schema a) in
  let i := defaulted_field "include_system" false (arg_include_system a) in
  match s, i with
  | inr s', inr i' => inr {| gt_schema := s'; include_system := i' |}
  | _, _ => inl (ValidationError "GetTablesArgs" (problems s ++ problems i))
  end.

Definition GetColumnsArgs_new (a : columns_arguments) : exn + GetColumnsArgs :=
  let t := validated_field "table_name" validate_table_name (arg_table_name a) in
  let s := defaulted_field "schema" None (arg_columns_schema a) in
  match t, s with
  | inr t', inr s' => inr {| table_name := t'; gc_schema := s' |}
  | _, _ => inl (ValidationError "GetColumnsArgs" (problems t ++ problems s))
  end.

(** ** The environment: driver, file system and process settings *)

Definition handle := nat.

(** A value of a result row as [json.dumps] sees it.  [VObject] is anything
    the encoder refuses (a decimal, a byte string, a Java object); it carries
    the name of its type. *)
Inductive value :=
  | VNull
  | VBool (b : bool)
  | VInt (z : Z)
  | VStr (s : string)
  | VFloat (repr : string)
  | VObject (type_name : string).

Definition row := list value.

(** An entry of [cursor.description]: the column name, then the remaining
    items of the DB-API tuple. *)
Record column_desc := { desc_name : string; desc_rest : list value }.

Record ResultSet := { rs_description : list column_desc; rs_rows : list row }.

(** A row of [DatabaseMetaData.getTables]. *)
Record TableEntry := {
  TABLE_NAME : option string;
  TABLE_SCHEM : option string;
  TABLE_TYPE : option string;
  TABLE_REMARKS : option string
}.

(** A row of [DatabaseMetaData.getColumns], read with the getters the code uses. *)
Record ColumnEntry := {
  COLUMN_NAME : option string;
  TYPE_NAME : option string;
  COLUMN_SIZE : Z;
  NULLABLE : bool;
  COLUMN_DEF : option string;
  COLUMN_REMARKS : option string
}.

(** A row of [DatabaseMetaData.getImportedKeys]. *)
Record ImportedKeyEntry := {
  FK_NAME : option string;
  FKCOLUMN_NAME : option string;
  PKTABLE_NAME : option string;
  PKCOLUMN_NAME : option string
}.

(** What the world outside the program answers.  A [Some msg] or [inl msg]
    answer is an exception raised by the call, [msg] being its [str]. *)
Record Environment := {
  (** [JdbcConfig()]: the five settings read from the process environment *)
  env_config : JdbcConfig;
  (** [os.path.exists] *)
  path_exists : string -> bool;
  (** [str] of a pydantic [ValidationError] *)
  validation_text : string -> list field_error -> string;
  (** [jaydebeapi.connect(jclassname, url, driver_args, jars)] *)
  connect_fails : string -> string -> list string -> string -> option string;
  (** [Connection.close], [Connection.cursor], [Cursor.close], [getMetaData] *)
  close_fails : handle -> option string;
  cursor_fails : handle -> option string;
  cursor_close_fails : handle -> option string;
  metadata_fails : handle -> option string;
  (** [Cursor.execute]: [inr None] is a statement that ran and produced no
      result set *)
  run_query : string -> string + option ResultSet;
  (** [Cursor.fetchmany(size)] and [Cursor.fetchone] on a cursor that has a
      result set *)
  fetchmany_fails : handle -> Z -> option string;
  fetchone_fails : handle -> option string;
  (** the catalog's tables in its own order, the driver's pattern matching
      and whether [getTables] raises for a schema pattern and a list of
      types *)
  catalog_tables : list TableEntry;
  like : string -> option string -> bool;
  tables_fails : option string -> option (list string) -> option string;
  (** [getColumns], [getPrimaryKeys], [getImportedKeys] for a schema pattern
      and a table name *)
  table_columns : option string -> string -> string + list ColumnEntry;
  primary_keys : option string -> string -> string + list (option string);
  imported_keys : option string -> string -> string + list ImportedKeyEntry
}.

(** A call into the driver. *)
Inductive event :=
  | Connect (jclassname url : string) (driver_args : list string) (jars : string)
            (opened : option handle)
  | ConnectionClose (h : handle)
  | OpenCursor (h : handle)
  | CursorClose (h : handle)
  | Execute (h : handle) (operation : string)
  | FetchMany (h : handle) (size : Z)
  | FetchOne (h : handle)
  | GetMetaData (h : handle)
  | GetTables (h : handle) (schemaPattern : option string)
              (tableNamePattern : string) (types : option (list string))
  | GetColumns (h : handle) (schemaPattern : option string)
               (tableNamePattern columnNamePattern : string)
  | GetPrimaryKeys (h : handle) (schema : option string) (table : string)
  | GetImportedKeys (h : handle) (schema : option string) (table : string).

(** A jaydebeapi cursor: its connection and the result set it is reading,
    with the rows not fetched yet. *)
Record Cursor := {
  cur_conn : handle;
  cur_description : option (list column_desc);
  cur_pending : list row
}.

(** The state one tool invocation works on.  A handler builds one client and
    calls one method of it, so the client's only mutable attribute and the
    local variables that the [finally] blocks test are fields of one record. *)
Record state := {
  (** driver calls so far, oldest first *)
  trace : list event;
  (** the handle the next successful [jaydebeapi.connect] returns *)
  fresh : handle;
  (** [self._connection] *)
  _connection : option handle;
  (** the handler's local [client] is bound *)
  client_bound : bool;
  (** the method's local [cursor], when bound *)
  cursor : option Cursor
}.

Definition initial : state :=
  {| trace := []; fresh := 0; _connection := None;
     client_bound := false; cursor := None |}.

(** ** A state and exception monad *)

Inductive outcome (A : Type) :=
  | Ok (a : A)
  | Raise (e : exn).
Arguments Ok {A} a.
Arguments Raise {A} e.

Definition M (A : Type) : Type := state -> outcome A * state.

Definition ret {A} (a : A) : M A := fun s => (Ok a, s).

Definition raise {A} (e : exn) : M A := fun s => (Raise e, s).

Definition bind {A B} (m : M A) (k : A -> M B) : M B :=
  fun s => match m s with
           | (Ok a, s') => k a s'
           | (Raise e, s') => (Raise e, s')
           end.

Notation "x <- m ;; k" := (bind m (fun x => k))
  (at level 61, m at next level, right associativity).
Notation "m ;; k" := (bind m (fun _ => k))
  (at level 61, right associativity).

(** [try: m  except Exception as e: h e] *)
Definition try_except {A} (m : M A) (h : exn -> M A) : M A :=
  fun s => match m s with
           | (Ok a, s') => (Ok a, s')
           | (Raise e, s') => h e s'
           end.

(** [try: m  finally: f]: [f] runs on every exit of [m]; an exception of [f]
    replaces the outcome of [m]. *)
Definition try_finally {A} (m : M A) (f : M unit) : M A :=
  fun s => match m s with
           | (r, s') =>
               match f s' with
               | (Ok _, s'') => (r, s'')
               | (Raise e, s'') => (Raise e, s'')
               end
           end.

Definition of_sum {A} (r : exn + A) : M A :=
  match r with inl e => raise e | inr a => ret a end.

Definition get {A} (f : state -> A) : M A := fun s => (Ok (f s), s).

Definition emit (ev : event) : M unit :=
  fun s => (Ok tt, {| trace := trace s ++ [ev]; fresh := fresh s;
                      _connection := _connection s;
                      client_bound := client_bound s; cursor := cursor s |}).

Definition set_connection (c : option handle) : M unit :=
  fun s => (Ok tt, {| trace := trace s; fresh := fresh s; _connection := c;
                      client_bound := client_bound s; cursor := cursor s |}).

Definition set_cursor (c : option Cursor) : M unit :=
  fun s => (Ok tt, {| trace := trace s; fresh := fresh s;
                      _connection := _connection s;
                      client_bound := client_bound s; cursor := c |}).

Definition bind_client : M unit :=
  fun s => (Ok tt, {| trace := trace s; fresh := fresh s;
                      _connection := _connection s;
                      client_bound := true; cursor := cursor s |}).

Definition take_handle : M handle :=
  fun s => (Ok (fresh s), {| trace := trace s; fresh := S (fresh s);
                             _connection := _connection s;
                             client_bound := client_bound s;
                             cursor := cursor s |}).

(** A driver call that returns nothing: recorded, then raising if the
    environment says so. *)
Definition driver_call (ev : event) (fails : option string) : M unit :=
  emit ev ;;
  match fails with
  | Some msg => raise (DriverError msg)
  | None => ret tt
  end.

(** ** Results *)

Record QueryResult := {
  columns : list string;
  rows : list row;
  row_count : nat;
  has_more : bool
}.

Record TableDescriptor := {
  td_table_name : option string;
  td_schema : option string;
  td_type : option string;
  td_remarks : option string
}.

Record TablesResult := { tables : list TableDescriptor; count : nat }.

Record ColumnDescriptor := {
  col_name : option string;
  col_type : option string;
  col_size : Z;
  col_nullable : bool;
  col_default : option string;
  col_remarks : option string
}.

Record ForeignKeyDescriptor := {
  fk_name : option string;
  fk_column : option string;
  pk_table : option string;
  pk_column : option string
}.

Record SchemaDescriptor := {
  sd_table_name : string;
  sd_schema : option string;
  sd_columns : list ColumnDescriptor;
  sd_primary_keys : list (option string);
  sd_foreign_keys : list ForeignKeyDescriptor
}.

(** What a handler returns: the dictionary that is serialised. *)
Inductive response :=
  | QueryResponse (r : QueryResult)
  | TablesResponse (r : TablesResult)
  | ColumnsResponse (r : SchemaDescriptor)
  | ErrorResponse (error : string).

(** The type name [json.dumps] complains about, for a value it refuses. *)
Definition refused (v : value) : option string :=
  match v with
  | VObject t => Some t
  | _ => None
  end.

(** The first value of the rows, in encoding order, that [json.dumps] refuses. *)
Fixpoint first_refused (vs : list value) : option string :=
  match vs with
  | [] => None
  | v :: vs' =>
      match refused v with
      | Some t => Some t
      | None => first_refused vs'
      end
  end.

(** [json.dumps(result)] for a query result: a [TypeError] on the first value
    that is not serialisable. *)
Definition json_dumps_query (r : QueryResult) : M response :=
  match first_refused (concat (rows r)) with
  | Some t => raise (TypeError ("Object of type " ++ t ++ " is not JSON serializable"))
  | None => ret (QueryResponse r)
  end.

Section Driver.

Variable E : Environment.

(** [str(e)] *)
Definition str (e : exn) : string :=
  match e with
  | ValueError msg => msg
  | ValidationError model errors => validation_text E model errors
  | JdbcError msg => msg
  | TypeError msg => msg
  | AttributeError msg => msg
  | NameError msg => msg
  | DriverError msg => msg
  end.

(** *** Driver calls *)

Definition jaydebeapi_connect (jclassname url : string)
    (driver_args : list string) (jars : string) : M handle :=
  match connect_fails E jclassname url driver_args jars with
  | Some msg =>
      emit (Connect jclassname url driver_args jars None) ;;
      raise (DriverError msg)
  | None =>
      h <- take_handle ;;
      emit (Connect jclassname url driver_args jars (Some h)) ;;
      ret h
  end.

(** [self._connection.<attr>]: an [AttributeError] when it is [None]. *)
Definition the_connection (attr : string) : M handle :=
  c <- get _connection ;;
  match c with
  | Some h => ret h
  | None =>
      raise (AttributeError ("'NoneType' object has no attribute '" ++ attr ++ "'"))
  end.

(** The local [cursor]: a [NameError] when it is not bound. *)
Definition the_cursor : M Cursor :=
  c <- get cursor ;;
  match c with
  | Some cur => ret cur
  | None => raise (NameError "name 'cursor' is not defined")
  end.

(** [cursor = self._connection.cursor()] *)
Definition open_cursor : M unit :=
  h <- the_connection "cursor" ;;
  driver_call (OpenCursor h) (cursor_fails E h) ;;
  set_cursor (Some {| cur_conn := h; cur_description := None; cur_pending := [] |}).

(** [cursor.close()] *)
Definition cursor_close : M unit :=
  cur <- the_cursor ;;
  driver_call (CursorClose (cur_conn cur)) (cursor_close_fails E (cur_conn cur)).

(** [cursor.execute(operation)] *)
Definition cursor_execute (operation : string) : M unit :=
  cur <- the_cursor ;;
  emit (Execute (cur_conn cur) operation) ;;
  match run_query E operation with
  | inl msg => raise (DriverError msg)
  | inr None =>
      set_cursor (Some {| cur_conn := cur_conn cur; cur_description := None;
                          cur_pending := [] |})
  | inr (Some rs) =>
      set_cursor (Some {| cur_conn := cur_conn cur;
                          cur_description := Some (rs_description rs);
                          cur_pending := rs_rows rs |})
  end.

(** [[desc[0] for desc in cursor.description]] *)
Definition description_names : M (list string) :=
  cur <- the_cursor ;;
  match cur_description cur with
  | None => raise (TypeError "'NoneType' object is not iterable")
  | Some d => ret (map desc_name d)
  end.

(** [cursor.fetchmany(size)]: up to [size] rows, which leave the cursor.
    jaydebeapi raises its [Error] when there is no result set, and the driver
    may raise while the rows are read. *)
Definition cursor_fetchmany (size : Z) : M (list row) :=
  cur <- the_cursor ;;
  emit (FetchMany (cur_conn cur) size) ;;
  match cur_description cur with
  | None => raise (DriverError EmptyString)
  | Some d =>
      match fetchmany_fails E (cur_conn cur) size with
      | Some msg => raise (DriverError msg)
      | None =>
          set_cursor (Some {| cur_conn := cur_conn cur;
                              cur_description := Some d;
                              cur_pending :=
                                skipn (Z.to_nat size) (cur_pending cur) |}) ;;
          ret (firstn (Z.to_nat size) (cur_pending cur))
      end
  end.

(** [cursor.fetchone()]: the next row, or [None] at the end; the driver may
    raise while it moves to the next row. *)
Definition cursor_fetchone : M (option row) :=
  cur <- the_cursor ;;
  emit (FetchOne (cur_conn cur)) ;;
  match cur_description cur with
  | None => raise (DriverError EmptyString)
  | Some d =>
      match fetchone_fails E (cur_conn cur) with
      | Some msg => raise (DriverError msg)
      | None =>
          match cur_pending cur with
          | [] => ret None
          | r :: pending =>
              set_cursor (Some {| cur_conn := cur_conn cur;
                                  cur_description := Some d;
                                  cur_pending := pending |}) ;;
              ret (Some r)
          end
      end
  end.

(** [metadata = self._connection.jconn.getMetaData()] *)
Definition get_metadata : M handle :=
  h <- the_connection "jconn" ;;
  driver_call (GetMetaData h) (metadata_fails E h) ;;
  ret h.

Definition type_listed (types : option (list string)) (t : option string) : bool :=
  match types with
  | None => true
  | Some l =>
      match t with
      | Some t' => existsb (String.eqb t') l
      | None => false
      end
  end.

Definition schema_matches (schemaPattern : option string) (s : option string) : bool :=
  match schemaPattern with
  | None => true
  | Some p => like E p s
  end.

(** [metadata.getTables(None, schemaPattern, tableNamePattern, types)] read to
    its end: by the JDBC contract, the catalog's tables whose schema and name
    match the patterns and whose type is one of [types], every type when
    [types] is null. *)
Definition metadata_getTables (h : handle) (schemaPattern : option string)
    (tableNamePattern : string) (types : option (list string)) : M (list TableEntry) :=
  driver_call (GetTables h schemaPattern tableNamePattern types)
              (tables_fails E schemaPattern types) ;;
  ret (filter (fun t => schema_matches schemaPattern (TABLE_SCHEM t)
                        && like E tableNamePattern (TABLE_NAME t)
                        && type_listed types (TABLE_TYPE t))
              (catalog_tables E)).

Definition metadata_call {A} (ev : event) (answer : string + A) : M A :=
  emit ev ;;
  match answer with
  | inl msg => raise (DriverError msg)
  | inr a => ret a
  end.

End Driver.

(** *** JdbcClient *)

Module JdbcClient.

Section Methods.

Variable E : Environment.

(** [JdbcClient._verify_config] *)
Definition _verify_config (config : JdbcConfig) : M unit :=
  if negb (PyStr.truthy (jdbc_url config)) then
    raise (JdbcError "JDBC URL is required")
  else if negb (PyStr.truthy (jdbc_driver config)) then
    raise (JdbcError "JDBC driver class name is required")
  else if negb (PyStr.truthy (jdbc_driver_path config)) then
    raise (JdbcError "JDBC driver JAR path is required")
  else if negb (path_exists E (jdbc_driver_path config)) then
    raise (JdbcError ("JDBC driver JAR not found at " ++ jdbc_driver_path config))
  else ret tt.

(** [JdbcClient.__init__] *)
Definition __init__ (config : JdbcConfig) : M unit :=
  set_connection None ;;
  _verify_config config.

(** [JdbcClient.connect] *)
Definition connect (config : JdbcConfig) : M bool :=
  try_except
    (h <- jaydebeapi_connect E (jdbc_driver config) (jdbc_url config)
            [username config; password config] (jdbc_driver_path config) ;;
     set_connection (Some h) ;;
     ret true)
    (fun e => raise (JdbcError ("Connection failed: " ++ str E e))).

(** [JdbcClient.close] *)
Definition close : M unit :=
  c <- get _connection ;;
  match c with
  | Some h =>
      try_finally
        (try_except
           (driver_call (ConnectionClose h) (close_fails E h))
           (fun e => ret tt))
        (set_connection None)
  | None => ret tt
  end.

(** The opening lines of the three methods below:
    [if not self._connection: self.connect()]. *)
Definition connect_if_none (config : JdbcConfig) : M unit :=
  c <- get _connection ;;
  match c with
  | None => connect config ;; ret tt
  | Some _ => ret tt
  end.

(** [with self._connection.cursor() as cursor: body] *)
Definition with_cursor {A} (body : M A) : M A :=
  open_cursor E ;;
  try_finally body (cursor_close E).

(** The [finally] of [get_tables] and [get_columns]:
    [if 'cursor' in locals(): cursor.close()]. *)
Definition close_cursor_if_bound : M unit :=
  c <- get cursor ;;
  match c with
  | Some _ => cursor_close E
  | None => ret tt
  end.

(** [JdbcClient.execute_query] *)
Definition execute_query (config : JdbcConfig) (query : string)
    (max_rows : Z) : M QueryResult :=
  connect_if_none config ;;
  try_except
    (with_cursor
       (cursor_execute E query ;;
        columns <- description_names ;;
        rows <- cursor_fetchmany E max_rows ;;
        next <- cursor_fetchone E ;;
        ret {| columns := columns;
               rows := rows;
               row_count := length rows;
               has_more := match next with Some _ => true | None => false end |}))
    (fun e => raise (JdbcError ("Query failed: " ++ str E e))).

Definition table_descriptor (t : TableEntry) : TableDescriptor :=
  {| td_table_name := TABLE_NAME t;
     td_schema := TABLE_SCHEM t;
     td_type := TABLE_TYPE t;
     td_remarks := TABLE_REMARKS t |}.

(** [JdbcClient.get_tables] *)
Definition get_tables (config : JdbcConfig) (schema : option string)
    (include_system : bool) : M TablesResult :=
  connect_if_none config ;;
  try_finally
    (try_except
       (open_cursor E ;;
        metadata <- get_metadata E ;;
        rs <- metadata_getTables E metadata schema "%"
                (if negb include_system then Some ["TABLE"] else None) ;;
        let tables := map table_descriptor rs in
        ret {| tables := tables; count := length tables |})
       (fun e => raise (JdbcError ("Failed to get tables: " ++ str E e))))
    close_cursor_if_bound.

Definition column_descriptor (c : ColumnEntry) : ColumnDescriptor :=
  {| col_name := COLUMN_NAME c;
     col_type := TYPE_NAME c;
     col_size := COLUMN_SIZE c;
     col_nullable := NULLABLE c;
     col_default := COLUMN_DEF c;
     col_remarks := COLUMN_REMARKS c |}.

Definition foreign_key_descriptor (k : ImportedKeyEntry) : ForeignKeyDescriptor :=
  {| fk_name := FK_NAME k;
     fk_column := FKCOLUMN_NAME k;
     pk_table := PKTABLE_NAME k;
     pk_column := PKCOLUMN_NAME k |}.

(** [JdbcClient.get_columns] *)
Definition get_columns (config : JdbcConfig) (table_name : string)
    (schema : option string) : M SchemaDescriptor :=
  connect_if_none config ;;
  try_finally
    (try_except
       (open_cursor E ;;
        metadata <- get_metadata E ;;
        rs <- metadata_call (GetColumns metadata schema table_name "%")
                (table_columns E schema table_name) ;;
        let columns := map column_descriptor rs in
        rs <- metadata_call (GetPrimaryKeys metadata schema table_name)
                (primary_keys E schema table_name) ;;
        let pk_columns := rs in
        rs <- metadata_call (GetImportedKeys metadata schema table_name)
                (imported_keys E schema table_name) ;;
        let foreign_keys := map foreign_key_descriptor rs in
        ret {| sd_table_name := table_name;
               sd_schema := schema;
               sd_columns := columns;
               sd_primary_keys := pk_columns;
               sd_foreign_keys := foreign_keys |})
       (fun e => raise (JdbcError ("Failed to get columns: " ++ str E e))))
    close_cursor_if_bound.

End Methods.

End JdbcClient.

(** *** The tool handlers *)

Section Handlers.

Variable E : Environment.

(** The [finally] of the handlers: [if 'client' in locals(): client.close()]. *)
Definition close_client_if_bound : M unit :=
  b <- get client_bound ;;
  if b then JdbcClient.close E else ret tt.

(** [client = JdbcClient(config)] *)
Definition new_client (config : JdbcConfig) : M unit :=
  JdbcClient.__init__ E config ;;
  bind_client.

(** The [try] block of the [execute_query] handler. *)
Definition execute_query_body (arguments : query_arguments) : M response :=
  args <- of_sum (QueryArgs_new arguments) ;;
  let config := env_config E in
  new_client config ;;
  result <- JdbcClient.execute_query E config (query args) (max_rows args) ;;
  json_dumps_query result.

(** The [execute_query] handler. *)
Definition execute_query (arguments : query_arguments) : M response :=
  try_finally
    (try_except (execute_query_body arguments)
                (fun e => ret (ErrorResponse (str E e))))
    close_client_if_bound.

(** The [try] block of the [get_tables] handler. *)
Definition get_tables_body (arguments : tables_arguments) : M response :=
  args <- of_sum (GetTablesArgs_new arguments) ;;
  let config := env_config E in
  new_client config ;;
  result <- JdbcClient.get_tables E config (gt_schema args) (include_system args) ;;
  ret (TablesResponse result).

(** The [get_tables] handler. *)
Definition get_tables (arguments : tables_arguments) : M response :=
  try_finally
    (try_except (get_tables_body arguments)
                (fun e => ret (ErrorResponse (str E e))))
    close_client_if_bound.

(** The [try] block of the [get_columns] handler. *)
Definition get_columns_body (arguments : columns_arguments) : M response :=
  args <- of_sum (GetColumnsArgs_new arguments) ;;
  let config := env_config E in
  new_client config ;;
  result <- JdbcClient.get_columns E config (table_name args) (gc_schema args) ;;
  ret (ColumnsResponse result).

(** The [get_columns] handler. *)
Definition get_columns (arguments : columns_arguments) : M response :=
  try_finally
    (try_except (get_columns_body arguments)
                (fun e => ret (ErrorResponse (str E e))))
    close_client_if_bound.

End Handlers.

(** The state a handler is entered in: nothing is bound yet, whatever the
    driver was asked before and whatever handle it gives out next. *)
Definition entry (past : list event) (next : handle) : state :=
  {| trace := past; fresh := next; _connection := None;
     client_bound := false; cursor := None |}.

(** *** Readings of the specification's words *)

(** The first token of a statement: the characters of the trimmed statement
    up to its first white space. *)
Fixpoint until_space (s : string) : string :=
  match s with
  | EmptyString => EmptyString
  | String c s' => if PyStr.isspace c then EmptyString else String c (until_space s')
  end.

Definition spec_first_token (statement : string) : string :=
  until_space (PyStr.strip statement).

(** The validator as the specification words it: the trimmed statement is not
    empty and its first token, in capitals, is exactly SELECT. *)
Definition spec_validate (statement : string) : bool :=
  PyStr.truthy (PyStr.strip statement)
  && String.eqb (PyStr.upper (spec_first_token statement)) "SELECT".

(** The configuration invariant as the specification words it: all five
    fields are non-empty and the driver artifact exists. *)
Definition spec_config_ok (E : Environment) (config : JdbcConfig) : bool :=
  PyStr.truthy (jdbc_url config) && PyStr.truthy (jdbc_driver config)
  && PyStr.truthy (jdbc_driver_path config) && PyStr.truthy (username config)
  && PyStr.truthy (password config) && path_exists E (jdbc_driver_path config).

(** *** Derived notions used in the statements *)

(** What [_verify_config] tests. *)
Definition config_verified (E : Environment) (config : JdbcConfig) : bool :=
  PyStr.truthy (jdbc_url config) && PyStr.truthy (jdbc_driver config)
  && PyStr.truthy (jdbc_driver_path config)
  && path_exists E (jdbc_driver_path config).

(** The messages of [_verify_config]. *)
Definition config_messages (config : JdbcConfig) : list string :=
  [ "JDBC URL is required";
    "JDBC driver class name is required";
    "JDBC driver JAR path is required";
    "JDBC driver JAR not found at " ++ jdbc_driver_path config ].

Definition closes (h : handle) (ev : event) : bool :=
  match ev with
  | ConnectionClose h' => Nat.eqb h h'
  | _ => false
  end.

(** The connections a run of driver calls opened and did not call [close]
    on afterwards. *)
Fixpoint unclosed (evs : list event) : list handle :=
  match evs with
  | [] => []
  | Connect _ _ _ _ (Some h) :: rest =>
      if existsb (closes h) rest then unclosed rest else h :: unclosed rest
  | _ :: rest => unclosed rest
  end.

(** The [max_rows] a call runs with. *)
Definition effective_max_rows (a : arg Z) : Z :=
  match a with Given n => n | _ => 100%Z end.

(** The [schema] a call runs with: [None] when the key is absent. *)
Definition effective_schema (a : arg (option string)) : option string :=
  match a with Given s => s | _ => None end.

(** At the end of an invocation that started after the driver calls [past]:
    the client holds no connection, and [close] was called on every
    connection that the invocation opened. *)
Definition released (past : list event) (s : state) : Prop :=
  _connection s = None /\
  exists evs, trace s = (past ++ evs)%list /\ unclosed evs = [].

(** *** A sample environment *)

Definition sample_config : JdbcConfig :=
  {| jdbc_url := "jdbc:h2:mem:test";
     jdbc_driver := "org.h2.Driver";
     jdbc_driver_path := "/opt/h2.jar";
     username := "sa";
     password := "secret" |}.

Definition sample_tables : list TableEntry :=
  [ {| TABLE_NAME := Some "users"; TABLE_SCHEM := Some "public";
       TABLE_TYPE := Some "TABLE"; TABLE_REMARKS := None |};
    {| TABLE_NAME := Some "pg_class"; TABLE_SCHEM := Some "public";
       TABLE_TYPE := Some "SYSTEM TABLE"; TABLE_REMARKS := None |};
    {| TABLE_NAME := Some "orders"; TABLE_SCHEM := Some "public";
       TABLE_TYPE := Some "TABLE"; TABLE_REMARKS := Some "all orders" |};
    {| TABLE_NAME := Some "active_users"; TABLE_SCHEM := Some "public";
       TABLE_TYPE := Some "VIEW"; TABLE_REMARKS := None |} ].

Definition sample_columns : list ColumnEntry :=
  [ {| COLUMN_NAME := Some "id"; TYPE_NAME := Some "INTEGER"; COLUMN_SIZE := 10;
       NULLABLE := false; COLUMN_DEF := None; COLUMN_REMARKS := None |};
    {| COLUMN_NAME := Some "name"; TYPE_NAME := Some "VARCHAR"; COLUMN_SIZE := 255;
       NULLABLE := true; COLUMN_DEF := None; COLUMN_REMARKS := None |} ].

(** A reachable database with the given settings whose every statement
    answers the columns [name, id] and the given rows. *)
Definition sample_env (config : JdbcConfig) (data : list row) : Environment :=
  {| env_config := config;
     path_exists := String.eqb "/opt/h2.jar";
     validation_text := fun model errors =>
       String.concat "; "
         (map (fun fe => match snd fe with
                         | ValueErrorRaised msg => "Value error, " ++ msg
                         | _ => fst fe
                         end) errors);
     connect_fails := fun _ _ _ _ => None;
     close_fails := fun _ => None;
     cursor_fails := fun _ => None;
     cursor_close_fails := fun _ => None;
     metadata_fails := fun _ => None;
     fetchmany_fails := fun _ _ => None;
     fetchone_fails := fun _ => None;
     run_query := fun _ =>
       inr (Some {| rs_description :=
                      [ {| desc_name := "name"; desc_rest := [] |};
                        {| desc_name := "id"; desc_rest := [] |} ];
                    rs_rows := data |});
     catalog_tables := sample_tables;
     like := fun p s =>
       match s with
       | Some s' => String.eqb p "%" || String.eqb p s'
       | None => String.eqb p "%"
       end;
     tables_fails := fun _ _ => None;
     table_columns := fun _ _ => inr sample_columns;
     primary_keys := fun _ _ => inr [Some "id"];
     imported_keys := fun _ _ => inr [] |}.

Definition five_rows : list row :=
  [ [VStr "a"; VInt 1]; [VStr "b"; VInt 2]; [VStr "c"; VInt 3];
    [VStr "d"; VInt 4]; [VStr "e"; VInt 5] ].

Definition sample : Environment := sample_env sample_config five_rows.

(** The scenario of the specification: five rows, [max_rows = 2]. *)
Definition sample_query : query_arguments :=
  {| arg_query := Given "SELECT name, id FROM t"; arg_max_rows := Given 2%Z |}.

Definition sample_result : QueryResult :=
  {| columns := ["name"; "id"];
     rows := [ [VStr "a"; VInt 1]; [VStr "b"; VInt 2] ];
     row_count := 2;
     has_more := true |}.

Definition sample_final : state :=
  snd (execute_query sample sample_query (entry [] 0)).

(** Settings with no user name and no password. *)
Definition no_credentials : JdbcConfig :=
  {| jdbc_url := "jdbc:h2:mem:test";
     jdbc_driver := "org.h2.Driver";
     jdbc_driver_path := "/opt/h2.jar";
     username := EmptyString;
     password := EmptyString |}.

(** A client that connected once. *)
Definition connected_once : state :=
  snd (JdbcClient.connect sample sample_config (entry [] 0)).

(** Listing the ordinary tables of the schema "public". *)
Definition sample_tables_call : tables_arguments :=
  {| arg_schema := Given (Some "public"); arg_include_system := Given false |}.

Definition sample_tables_result : TablesResult :=
  {| tables :=
       [ {| td_table_name := Some "users"; td_schema := Some "public";
            td_type := Some "TABLE"; td_remarks := None |};
         {| td_table_name := Some "orders"; td_schema := Some "public";
            td_type := Some "TABLE"; td_remarks := Some "all orders" |} ];
     count := 2 |}.

Definition sample_tables_final : state :=
  snd (get_tables sample sample_tables_call (entry [] 0)).

(** Describing the table " users ", no schema given. *)
Definition sample_columns_call : columns_arguments :=
  {| arg_table_name := Given " users "; arg_columns_schema := Missing |}.

Definition sample_columns_result : SchemaDescriptor :=
  {| sd_table_name := "users";
     sd_schema := None;
     sd_columns := map JdbcClient.column_descriptor sample_columns;
     sd_primary_keys := [Some "id"];
     sd_foreign_keys := [] |}.

Definition sample_columns_final : state :=
  snd (get_columns sample sample_columns_call (entry [] 0)).

(** *** Further notions used in the statements *)

(** The last character of a string. *)
Fixpoint last_char (s : string) : option ascii :=
  match s with
  | EmptyString => None
  | String c EmptyString => Some c
  | String _ s' => last_char s'
  end.

(** A string that neither starts nor ends with white space, and is not empty. *)
Definition trimmed (s : string) : Prop :=
  (exists c r, s = String c r /\ PyStr.isspace c = false) /\
  (exists c, last_char s = Some c /\ PyStr.isspace c = false).

Definition no_error {A} (o : option A) : bool :=
  match o with None => true | Some _ => false end.

(** The settings pass [_verify_config], the driver accepts the connection,
    and on the connection [h] it opens and closes cursors and hands out its
    metadata without an error. *)
Definition healthy (E : Environment) (h : handle) : bool :=
  config_verified E (env_config E)
  && no_error (connect_fails E (jdbc_driver (env_config E))
                 (jdbc_url (env_config E))
                 [username (env_config E); password (env_config E)]
                 (jdbc_driver_path (env_config E)))
  && no_error (cursor_fails E h)
  && no_error (cursor_close_fails E h)
  && no_error (metadata_fails E h).

(** The calls of [jaydebeapi.connect] in a run of driver calls. *)
Fixpoint connect_attempts (evs : list event) : nat :=
  match evs with
  | [] => 0
  | Connect _ _ _ _ _ :: rest => S (connect_attempts rest)
  | _ :: rest => connect_attempts rest
  end.

(** The statements passed to [cursor.execute] in a run of driver calls. *)
Fixpoint executed (evs : list event) : list string :=
  match evs with
  | [] => []
  | Execute _ q :: rest => q :: executed rest
  | _ :: rest => executed rest
  end.

(** The [Connect] call of a handler, with the settings of the environment. *)
Definition connect_event (E : Environment) (opened : option handle) : event :=
  Connect (jdbc_driver (env_config E)) (jdbc_url (env_config E))
    [username (env_config E); password (env_config E)]
    (jdbc_driver_path (env_config E)) opened.

(** A database that refuses every connection with the given message. *)
Definition unreachable (msg : string) : Environment :=
  {| env_config := sample_config;
     path_exists := path_exists sample;
     validation_text := validation_text sample;
     connect_fails := fun _ _ _ _ => Some msg;
     close_fails := close_fails sample;
     cursor_fails := cursor_fails sample;
     cursor_close_fails := cursor_close_fails sample;
     metadata_fails := metadata_fails sample;
     run_query := run_query sample;
     fetchmany_fails := fetchmany_fails sample;
     fetchone_fails := fetchone_fails sample;
     catalog_tables := catalog_tables sample;
     like := like sample;
     tables_fails := tables_fails sample;
     table_columns := table_columns sample;
     primary_keys := primary_keys sample;
     imported_keys := imported_keys sample |}.

(** The sample database with other answers to statements, to closing a
    cursor and to the catalog calls of [getTables] and [getPrimaryKeys]. *)
Definition sample_with (answer : string + option ResultSet)
    (cursor_close : option string) (tables_error : option string)
    (keys : string + list (option string)) : Environment :=
  {| env_config := sample_config;
     path_exists := path_exists sample;
     validation_text := validation_text sample;
     connect_fails := connect_fails sample;
     close_fails := close_fails sample;
     cursor_fails := cursor_fails sample;
     cursor_close_fails := fun _ => cursor_close;
     metadata_fails := metadata_fails sample;
     run_query := fun _ => answer;
     fetchmany_fails := fetchmany_fails sample;
     fetchone_fails := fetchone_fails sample;
     catalog_tables := catalog_tables sample;
     like := like sample;
     tables_fails := fun _ _ => tables_error;
     table_columns := table_columns sample;
     primary_keys := fun _ _ => keys;
     imported_keys := imported_keys sample |}.

(** What a handler answers, and the state it leaves, when the driver refuses
    the connection with [msg]. *)
Definition connection_refused (E : Environment) (msg : string) (past : list event)
    (next : handle) : outcome response * state :=
  (Ok (ErrorResponse ("Connection failed: " ++ msg)),
   {| trace := past ++ [connect_event E None]; fresh := next;
      _connection := None; client_bound := true; cursor := None |}).

(** The sample database rejecting every statement. *)
Definition rejecting : Environment :=
  sample_with (inl "no such table") None None (inr []).

(** The sample database running every statement without a result set. *)
Definition silent : Environment :=
  sample_with (inr None) None None (inr []).

Definition sample_args : QueryArgs :=
  {| query := "SELECT name, id FROM t"; max_rows := 2 |}.

(** A result set whose second row holds a decimal. *)
Definition decimal_rows : ResultSet :=
  {| rs_description := [ {| desc_name := "name"; desc_rest := [] |};
                         {| desc_name := "price"; desc_rest := [] |} ];
     rs_rows := [ [VStr "a"; VInt 1]; [VStr "b"; VObject "Decimal"] ] |}.

Definition with_decimal : Environment :=
  sample_with (inr (Some decimal_rows)) None None (inr []).

(** The catalog entries [getTables] answers for a schema pattern and a list
    of types, as [get_tables] asks for them. *)
Definition listed_tables (E : Environment) (schema : option string)
    (types : option (list string)) : list TableEntry :=
  filter (fun t => schema_matches E schema (TABLE_SCHEM t)
                   && like E "%" (TABLE_NAME t)
                   && type_listed types (TABLE_TYPE t))
         (catalog_tables E).

(** The sample database whose cursors fail to close. *)
Definition sticky_cursor : Environment :=
  sample_with (run_query sample EmptyString) (Some "cursor gone") None
    (inr [Some "id"]).

(** The sample database refusing to list primary keys. *)
Definition no_primary_keys : Environment :=
  sample_with (run_query sample EmptyString) None None (inl "denied").

Definition sample_columns_args : GetColumnsArgs :=
  {| table_name := "users"; gc_schema := None |}.

(** A method that was entered with the connection [h] held, in the state
    [s], and left in the state [s']: the connection is still held, and the
    driver was asked neither for another connection nor to close this one. *)
Definition kept (s : state) (h : handle) (s' : state) : Prop :=
  _connection s' = Some h /\
  exists evs, trace s' = (trace s ++ evs)%list /\
              connect_attempts evs = 0 /\
              existsb (closes h) evs = false.

(** The settings check failed with [msg], seen from outside: building the
    client raises [JdbcError msg] without a driver call, and each handler
    answers the error record with [msg], or with the validation text when its
    own arguments are wrong, in the state it was entered in. *)
Definition config_error_reported (E : Environment) (past : list event)
    (next : handle) (msg : string) : Prop :=
  new_client E (env_config E) (entry past next)
  = (Raise (JdbcError msg), entry past next) /\
  (forall a,
     execute_query E a (entry past next)
     = (Ok (ErrorResponse match QueryArgs_new a with
                          | inl e => str E e
                          | inr _ => msg
                          end), entry past next)) /\
  (forall a,
     get_tables E a (entry past next)
     = (Ok (ErrorResponse match GetTablesArgs_new a with
                          | inl e => str E e
                          | inr _ => msg
                          end), entry past next)) /\
  (forall a,
     get_columns E a (entry past next)
     = (Ok (ErrorResponse match GetColumnsArgs_new a with
                          | inl e => str E e
                          | inr _ => msg
                          end), entry past next)).

(** * Properties *)

(** ** Strings *)

Lemma truthy_false (s : string) : PyStr.truthy s = false <-> s = EmptyString.
Proof. destruct s; simpl; split; intro H; congruence. Qed.

Lemma truthy_true (s : string) : PyStr.truthy s = true <-> s <> EmptyString.
Proof. destruct s; simpl; split; intro H; congruence. Qed.

Lemma startswith_app (s p : string) :
  PyStr.startswith s p = true <-> exists rest, s = p ++ rest.
Proof.
  unfold PyStr.startswith. revert s.
  induction p as [|c p IH]; intros s; simpl.
  - split; [intros _; exists s; reflexivity | destruct s; reflexivity].
  - destruct s as [|d s]; simpl.
    + split; [discriminate | intros [rest H]; discriminate].
    + destruct (Ascii.ascii_dec c d) as [->|Hne].
      * rewrite IH. split; intros [rest H]; exists rest; congruence.
      * split; [discriminate | intros [rest H]; congruence].
Qed.

Lemma lstrip_no_leading_space (s : string) c r :
  PyStr.lstrip s = String c r -> PyStr.isspace c = false.
Proof.
  induction s as [|d s IH]; simpl; [discriminate|].
  destruct (PyStr.isspace d) eqn:Hd; [exact IH|].
  intros H; injection H as -> _; exact Hd.
Qed.

Lemma rstrip_cons_nonspace c s :
  PyStr.isspace c = false -> exists r, PyStr.rstrip (String c s) = String c r.
Proof.
  intros Hc. simpl. destruct (PyStr.rstrip s); [rewrite Hc|]; eauto.
Qed.

(** What [strip] returns never starts with white space. *)
Lemma strip_no_leading_space (s : string) c r :
  PyStr.strip s = String c r -> PyStr.isspace c = false.
Proof.
  unfold PyStr.strip. destruct (PyStr.lstrip s) as [|d l] eqn:Hl; [discriminate|].
  pose proof (lstrip_no_leading_space _ _ _ Hl) as Hd.
  destruct (rstrip_cons_nonspace d l Hd) as [r' ->].
  intros H; injection H as -> _; exact Hd.
Qed.

(** ** The scenarios of the specification *)

Example strip_surrounding_space :
  PyStr.strip (String "009" " select 1  ") = "select 1".
Proof. reflexivity. Qed.

Example upper_of_mixed_case : PyStr.upper "Select a1" = "SELECT A1".
Proof. reflexivity. Qed.

Example lower_case_select_is_accepted :
  validate_query "  select id from t " = inr "select id from t".
Proof. reflexivity. Qed.

Example comment_before_select_is_rejected :
  validate_query "-- c
SELECT 1"
  = inl "Only SELECT queries are allowed for security reasons".
Proof. reflexivity. Qed.

Example blank_query_is_rejected :
  validate_query "   " = inl "Query cannot be empty".
Proof. reflexivity. Qed.

(** Five rows, [max_rows = 2]: two rows and [has_more]. *)
Example two_of_five :
  fst (execute_query sample sample_query (entry [] 0))
  = Ok (QueryResponse sample_result).
Proof. vm_compute. reflexivity. Qed.

(** Exactly two rows, [max_rows = 2]: two rows and no [has_more]. *)
Example two_of_two :
  fst (execute_query (sample_env sample_config (firstn 2 five_rows))
         sample_query (entry [] 0))
  = Ok (QueryResponse
          {| columns := ["name"; "id"];
             rows := [ [VStr "a"; VInt 1]; [VStr "b"; VInt 2] ];
             row_count := 2;
             has_more := false |}).
Proof. vm_compute. reflexivity. Qed.

(** [DROP TABLE t] is answered with an error that says only SELECT, and the
    driver is not touched. *)
Example drop_table_is_refused :
  execute_query sample
    {| arg_query := Given "DROP TABLE t"; arg_max_rows := Missing |}
    (entry [] 0)
  = (Ok (ErrorResponse
           "Value error, Only SELECT queries are allowed for security reasons"),
     entry [] 0).
Proof. vm_compute. reflexivity. Qed.

(** A value that [json.dumps] refuses turns the answer into an error record,
    after the query ran; the connection is closed all the same. *)
Example unserialisable_row :
  execute_query (sample_env sample_config [ [VStr "a"; VObject "Decimal"] ])
    sample_query (entry [] 0)
  = (Ok (ErrorResponse "Object of type Decimal is not JSON serializable"),
     {| trace :=
          [ Connect "org.h2.Driver" "jdbc:h2:mem:test" ["sa"; "secret"]
              "/opt/h2.jar" (Some 0);
            OpenCursor 0; Execute 0 "SELECT name, id FROM t";
            FetchMany 0 2; FetchOne 0; CursorClose 0; ConnectionClose 0 ];
        fresh := 1; _connection := None; client_bound := true;
        cursor := Some {| cur_conn := 0;
                          cur_description :=
                            Some [ {| desc_name := "name"; desc_rest := [] |};
                                   {| desc_name := "id"; desc_rest := [] |} ];
                          cur_pending := [] |} |}).
Proof. vm_compute. reflexivity. Qed.

(** ** The monad *)

Ltac inner_match T :=
  match T with
  | context [match ?x with _ => _ end] =>
      lazymatch x with
      | context [match _ with _ => _ end] => fail
      | _ => x
      end
  end.

(** Case analysis on the next answer of the environment, in a hypothesis. *)
Ltac split_in H :=
  let T := type of H in
  let x := inner_match T in
  destruct x eqn:?; cbn in H; try discriminate H.

(** The same in the goal. *)
Ltac split_goal :=
  match goal with
  | |- ?G => let x := inner_match G in destruct x eqn:?; cbn
  end.

Ltac unfold_program :=
  unfold execute_query, get_tables, get_columns,
    execute_query_body, get_tables_body, get_columns_body,
    close_client_if_bound, new_client,
    JdbcClient.execute_query, JdbcClient.get_tables, JdbcClient.get_columns,
    JdbcClient.with_cursor, JdbcClient.close_cursor_if_bound,
    JdbcClient.connect_if_none, JdbcClient.connect, JdbcClient.close,
    JdbcClient.__init__, JdbcClient._verify_config,
    json_dumps_query, metadata_getTables, metadata_call, get_metadata,
    cursor_fetchone, cursor_fetchmany, description_names, cursor_execute,
    cursor_close, open_cursor, the_cursor, the_connection, jaydebeapi_connect,
    driver_call, take_handle, bind_client, set_cursor, set_connection, emit,
    get, of_sum, try_finally, try_except, bind, raise, ret, entry in *.

Lemma QueryArgs_new_ok (a : query_arguments) (args : QueryArgs) :
  QueryArgs_new a = inr args ->
  exists v, arg_query a = Given v /\ validate_query v = inr (query args)
            /\ max_rows args = effective_max_rows (arg_max_rows a)
            /\ (1 <= max_rows args <= 1000)%Z.
Proof.
  destruct a as [q m]. unfold QueryArgs_new, validated_field, max_rows_field.
  cbn. intros H.
  destruct q as [|v|], m as [|z|]; cbn in H; try discriminate H;
    repeat split_in H; injection H as <-; exists v; cbn;
    repeat split; auto; lia.
Qed.

(** A successful [execute_query] call, in full: what it read, what it
    returns and the driver calls it made. *)
Lemma execute_query_success (E : Environment) (a : query_arguments)
    (past : list event) (next : handle) (r : QueryResult) (s' : state) :
  execute_query E a (entry past next) = (Ok (QueryResponse r), s') ->
  exists args rs,
    QueryArgs_new a = inr args /\
    run_query E (query args) = inr (Some rs) /\
    r = {| columns := map desc_name (rs_description rs);
           rows := firstn (Z.to_nat (max_rows args)) (rs_rows rs);
           row_count := length (firstn (Z.to_nat (max_rows args)) (rs_rows rs));
           has_more := match skipn (Z.to_nat (max_rows args)) (rs_rows rs) with
                       | [] => false
                       | _ :: _ => true
                       end |} /\
    trace s' = (past ++
      [ Connect (jdbc_driver (env_config E)) (jdbc_url (env_config E))
          [username (env_config E); password (env_config E)]
          (jdbc_driver_path (env_config E)) (Some next);
        OpenCursor next; Execute next (query args);
        FetchMany next (max_rows args); FetchOne next;
        CursorClose next; ConnectionClose next ])%list.
Proof.
  intros H.
  destruct (QueryArgs_new a) as [e|args] eqn:Hargs.
  - unfold_program. rewrite Hargs in H. cbn in H. discriminate H.
  - exists args. unfold_program. rewrite Hargs in H. cbn in H.
    repeat split_in H.
    all: injection H as <- <-; subst; eexists; repeat split; cbn;
      repeat rewrite <- app_assoc; cbn;
      repeat match goal with
             | Hx : ?x = _ |- context [?x] => rewrite Hx
             end; reflexivity.
Qed.

Lemma skipn_nonempty_iff {A} (n : nat) (l : list A) :
  match skipn n l with [] => false | _ :: _ => true end = true <-> n < length l.
Proof.
  pose proof (length_skipn n l) as Hlen.
  destruct (skipn n l); simpl in Hlen; split; intros H;
    try discriminate; try reflexivity; lia.
Qed.

Lemma firstn_length_firstn {A} (n : nat) (l : list A) :
  firstn (length (firstn n l)) l = firstn n l.
Proof.
  revert l. induction n as [|n IH]; intros [|x l]; simpl; try reflexivity.
  f_equal. apply IH.
Qed.

(** ** Query validation *)

(** C1, as the code has it: the validator accepts a statement exactly when
    the trimmed statement is not empty and, put in capitals, begins with the
    six characters SELECT (a prefix test, not a comparison of the first
    token); it then returns the trimmed statement.  A rejected statement makes
    the handler answer an error record and leaves the state as it was: the
    driver is not called. *)
Theorem C1_validate_query_is_a_prefix_test :
  forall (E : Environment) (v : string) (m : arg Z)
         (past : list event) (next : handle),
  match validate_query v with
  | inr q =>
      q = PyStr.strip v /\ PyStr.strip v <> EmptyString /\
      exists rest, PyStr.upper (PyStr.strip v) = "SELECT" ++ rest
  | inl msg =>
      (PyStr.strip v = EmptyString \/
       forall rest, PyStr.upper (PyStr.strip v) <> "SELECT" ++ rest) /\
      execute_query E {| arg_query := Given v; arg_max_rows := m |}
                    (entry past next)
      = (Ok (ErrorResponse
               (str E (ValidationError "QueryArgs"
                         (("query", ValueErrorRaised msg)
                            :: problems (max_rows_field m))))),
         entry past next)
  end.
Proof.
  intros E v m past next.
  destruct (validate_query v) as [msg|q] eqn:Hv.
  - split.
    + unfold validate_query in Hv.
      destruct (PyStr.truthy v) eqn:Htv; cbn in Hv.
      * destruct (PyStr.truthy (PyStr.strip v)) eqn:Hts; cbn in Hv.
        -- destruct (PyStr.startswith (PyStr.upper (PyStr.strip v)) "SELECT")
             eqn:Hp; cbn in Hv; [discriminate Hv|].
           right. intros rest Heq.
           assert (PyStr.startswith (PyStr.upper (PyStr.strip v)) "SELECT" = true)
             by (apply startswith_app; eauto).
           congruence.
        -- left. apply truthy_false. exact Hts.
      * left. apply truthy_false in Htv. subst v. reflexivity.
    + unfold_program. unfold QueryArgs_new, validated_field. cbn.
      rewrite Hv. destruct (max_rows_field m); reflexivity.
  - unfold validate_query in Hv.
    destruct (PyStr.truthy v) eqn:Htv; cbn in Hv; [|discriminate Hv].
    destruct (PyStr.truthy (PyStr.strip v)) eqn:Hts; cbn in Hv; [|discriminate Hv].
    destruct (PyStr.startswith (PyStr.upper (PyStr.strip v)) "SELECT") eqn:Hp;
      cbn in Hv; [|discriminate Hv].
    injection Hv as <-. repeat split.
    + apply truthy_true. exact Hts.
    + apply startswith_app. exact Hp.
Qed.

(** The statement "SELECTED * FROM t" has the first token SELECTED, which is
    not SELECT, yet the validator accepts it and the handler runs it on the
    driver. *)
Lemma C1_first_token_is_not_compared :
  spec_first_token "SELECTED * FROM t" = "SELECTED" /\
  spec_validate "SELECTED * FROM t" = false /\
  validate_query "SELECTED * FROM t" = inr "SELECTED * FROM t" /\
  In (Execute 0 "SELECTED * FROM t")
     (trace (snd (execute_query sample
                    {| arg_query := Given "SELECTED * FROM t";
                       arg_max_rows := Missing |} initial))).
Proof.
  split; [vm_compute; reflexivity|].
  split; [vm_compute; reflexivity|].
  split; [vm_compute; reflexivity|].
  vm_compute. right. right. left. reflexivity.
Qed.

(** ** Query execution *)

(** C2: a successful [execute_query] ran with a bound N in [1,1000], 100 when
    none was given; [row_count] is the number of rows returned, which is at
    most N; the rows are the first N of the result set; [has_more] holds
    exactly when the result set has more than N rows, and it comes from one
    [fetchone] issued right after the [fetchmany], whose row is in no way part
    of the result. *)
Theorem C2_rows_bounded_and_has_more :
  forall (E : Environment) (a : query_arguments) (past : list event)
         (next : handle) (r : QueryResult) (s' : state),
  execute_query E a (entry past next) = (Ok (QueryResponse r), s') ->
  exists (N : Z) (q : string) (rs : ResultSet),
    QueryArgs_new a = inr {| query := q; max_rows := N |} /\
    N = effective_max_rows (arg_max_rows a) /\
    (1 <= N <= 1000)%Z /\
    run_query E q = inr (Some rs) /\
    row_count r = length (rows r) /\
    (Z.of_nat (length (rows r)) <= N)%Z /\
    rows r = firstn (Z.to_nat N) (rs_rows rs) /\
    (has_more r = true <-> (N < Z.of_nat (length (rs_rows rs)))%Z) /\
    exists before,
      trace s' = (before ++ [ Execute next q; FetchMany next N; FetchOne next;
                              CursorClose next; ConnectionClose next ])%list.
Proof.
  intros E a past next r s' H.
  destruct (execute_query_success _ _ _ _ _ _ H) as (args & rs & Ha & Hq & -> & Ht).
  destruct (QueryArgs_new_ok _ _ Ha) as (v & _ & _ & HN & Hrange).
  exists (max_rows args), (query args), rs. cbn.
  split; [destruct args; exact Ha|].
  repeat split; auto; try lia.
  - pose proof (firstn_le_length (Z.to_nat (max_rows args)) (rs_rows rs)). lia.
  - intros Hm. apply skipn_nonempty_iff in Hm. lia.
  - intros Hlt. apply skipn_nonempty_iff. lia.
  - eexists. rewrite Ht.
    change (?x :: ?y :: ?l) with ([x; y] ++ l)%list at 1.
    rewrite app_assoc. reflexivity.
Qed.

(** The scenario of the specification: five rows and [max_rows = 2]. *)
Lemma C2_two_of_five_rows :
  execute_query sample sample_query (entry [] 0)
  = (Ok (QueryResponse sample_result), sample_final) /\
  exists (N : Z) (q : string) (rs : ResultSet),
    QueryArgs_new sample_query = inr {| query := q; max_rows := N |} /\
    N = effective_max_rows (arg_max_rows sample_query) /\
    (1 <= N <= 1000)%Z /\
    run_query sample q = inr (Some rs) /\
    row_count sample_result = length (rows sample_result) /\
    (Z.of_nat (length (rows sample_result)) <= N)%Z /\
    rows sample_result = firstn (Z.to_nat N) (rs_rows rs) /\
    (has_more sample_result = true <-> (N < Z.of_nat (length (rs_rows rs)))%Z) /\
    exists before,
      trace sample_final
      = (before ++ [ Execute 0 q; FetchMany 0 N; FetchOne 0;
                     CursorClose 0; ConnectionClose 0 ])%list.
Proof.
  assert (H : execute_query sample sample_query (entry [] 0)
              = (Ok (QueryResponse sample_result), sample_final))
    by (vm_compute; reflexivity).
  split; [exact H|].
  exact (C2_rows_bounded_and_has_more sample sample_query [] 0
           sample_result sample_final H).
Defined.

(** C8: the [columns] of a successful [execute_query] are the names of the
    driver's [cursor.description] for the statement that was run, in the
    driver's order, and the rows are a prefix of the driver's rows, each one
    value for value as the driver gave it. *)
Theorem C8_columns_and_rows_in_driver_order :
  forall (E : Environment) (a : query_arguments) (past : list event)
         (next : handle) (r : QueryResult) (s' : state),
  execute_query E a (entry past next) = (Ok (QueryResponse r), s') ->
  exists (v : string) (rs : ResultSet),
    arg_query a = Given v /\
    run_query E (PyStr.strip v) = inr (Some rs) /\
    In (Execute next (PyStr.strip v)) (trace s') /\
    columns r = map desc_name (rs_description rs) /\
    rows r = firstn (length (rows r)) (rs_rows rs) /\
    forall i x, nth_error (rows r) i = Some x -> nth_error (rs_rows rs) i = Some x.
Proof.
  intros E a past next r s' H.
  destruct (execute_query_success _ _ _ _ _ _ H) as (args & rs & Ha & Hq & -> & Ht).
  destruct (QueryArgs_new_ok _ _ Ha) as (v & Hv & Hval & _ & _).
  assert (Hstrip : query args = PyStr.strip v).
  { unfold validate_query in Hval. repeat split_in Hval. congruence. }
  rewrite Hstrip in *.
  exists v, rs. cbn. repeat split; auto.
  - rewrite Ht. apply in_or_app. right. simpl. auto.
  - symmetry. apply firstn_length_firstn.
  - intros i x Hi.
    assert (i < Z.to_nat (max_rows args)).
    { assert (i < length (firstn (Z.to_nat (max_rows args)) (rs_rows rs)))
        by (apply nth_error_Some; congruence).
      pose proof (firstn_le_length (Z.to_nat (max_rows args)) (rs_rows rs)). lia. }
    rewrite nth_error_firstn in Hi.
    destruct (Nat.ltb_spec i (Z.to_nat (max_rows args))); [exact Hi|lia].
Qed.

(** A query whose column list is not in alphabetical order. *)
Lemma C8_name_before_id :
  execute_query sample sample_query (entry [] 0)
  = (Ok (QueryResponse sample_result), sample_final) /\
  exists (v : string) (rs : ResultSet),
    arg_query sample_query = Given v /\
    run_query sample (PyStr.strip v) = inr (Some rs) /\
    In (Execute 0 (PyStr.strip v)) (trace sample_final) /\
    columns sample_result = map desc_name (rs_description rs) /\
    rows sample_result = firstn (length (rows sample_result)) (rs_rows rs) /\
    forall i x, nth_error (rows sample_result) i = Some x ->
                nth_error (rs_rows rs) i = Some x.
Proof.
  assert (H : execute_query sample sample_query (entry [] 0)
              = (Ok (QueryResponse sample_result), sample_final))
    by (vm_compute; reflexivity).
  split; [exact H|].
  exact (C8_columns_and_rows_in_driver_order sample sample_query [] 0
           sample_result sample_final H).
Defined.

(** ** Configuration *)

(** C3, as the code has it: building the client tests three settings, in
    this order: the connection string, the driver class and the driver path
    are not empty; then it tests that the driver path exists.  The first test
    that fails decides the message: "JDBC URL is required", "JDBC driver
    class name is required", "JDBC driver JAR path is required", or "JDBC
    driver JAR not found at " followed by the path.  Every handler then
    answers the error record with that message, or with the validation
    message when its own arguments are wrong, and the state is the one it was
    entered in: the driver is not called.  When the four tests pass the
    client is built, whatever the user name and the password are. *)
Theorem C3_three_settings_verified_before_connecting :
  forall (E : Environment) (past : list event) (next : handle),
  match jdbc_url (env_config E), jdbc_driver (env_config E),
        jdbc_driver_path (env_config E) with
  | EmptyString, _, _ =>
      config_error_reported E past next "JDBC URL is required"
  | String _ _, EmptyString, _ =>
      config_error_reported E past next "JDBC driver class name is required"
  | String _ _, String _ _, EmptyString =>
      config_error_reported E past next "JDBC driver JAR path is required"
  | String _ _, String _ _, String _ _ =>
      if path_exists E (jdbc_driver_path (env_config E)) then
        new_client E (env_config E) (entry past next)
        = (Ok tt, {| trace := past; fresh := next; _connection := None;
                     client_bound := true; cursor := None |})
      else
        config_error_reported E past next
          ("JDBC driver JAR not found at " ++ jdbc_driver_path (env_config E))
  end.
Proof.
  intros E past next.
  destruct (path_exists E (jdbc_driver_path (env_config E))) eqn:He;
    destruct (jdbc_url (env_config E)) as [|c1 u] eqn:Hu;
    destruct (jdbc_driver (env_config E)) as [|c2 d] eqn:Hd;
    destruct (jdbc_driver_path (env_config E)) as [|c3 p] eqn:Hp.
  all: try (unfold_program; cbn; rewrite ?He, ?Hu, ?Hd, ?Hp; cbn;
            rewrite ?He; reflexivity).
  all: unfold config_error_reported;
    (split; [unfold_program; cbn; rewrite ?He, ?Hu, ?Hd, ?Hp; cbn;
             rewrite ?He; reflexivity|]);
    (split; [|split]); intros a.
  all: try (destruct (QueryArgs_new a) eqn:Ha; unfold_program; rewrite Ha; cbn;
            rewrite ?He, ?Hu, ?Hd, ?Hp; cbn; rewrite ?He; reflexivity).
  all: try (destruct (GetTablesArgs_new a) eqn:Ha; unfold_program; rewrite Ha;
            cbn; rewrite ?He, ?Hu, ?Hd, ?Hp; cbn; rewrite ?He; reflexivity).
  all: destruct (GetColumnsArgs_new a) eqn:Ha; unfold_program; rewrite Ha;
    cbn; rewrite ?He, ?Hu, ?Hd, ?Hp; cbn; rewrite ?He; reflexivity.
Qed.

(** With an empty user name and an empty password the five-field invariant
    of the specification fails, yet the client is built, the driver is asked
    to connect with the empty credentials and the query is answered. *)
Lemma C3_empty_credentials_are_not_refused :
  spec_config_ok (sample_env no_credentials five_rows) no_credentials = false /\
  new_client (sample_env no_credentials five_rows) no_credentials (entry [] 0)
  = (Ok tt, {| trace := []; fresh := 0; _connection := None;
               client_bound := true; cursor := None |}) /\
  fst (execute_query (sample_env no_credentials five_rows) sample_query
         (entry [] 0))
  = Ok (QueryResponse sample_result) /\
  hd_error (trace (snd (execute_query (sample_env no_credentials five_rows)
                          sample_query (entry [] 0))))
  = Some (Connect "org.h2.Driver" "jdbc:h2:mem:test" [EmptyString; EmptyString] "/opt/h2.jar"
            (Some 0)).
Proof.
  split; [vm_compute; reflexivity|].
  split; [vm_compute; reflexivity|].
  split; vm_compute; reflexivity.
Qed.

(** ** Connection life cycle *)

Ltac still_held :=
  split;
  [ reflexivity
  | eexists; split;
    [ repeat rewrite <- app_assoc;
      first [ reflexivity | symmetry; apply app_nil_r ]
    | split; reflexivity ] ].

(** C4, as the code has it: [connect] is unconditional.  On a client that
    already holds a connection it asks the driver for a new one and replaces
    the held handle.  The no-op is in the three operations: [execute_query],
    [get_tables] and [get_columns], called while a connection is held, do
    not ask the driver for a connection and do not close the held one, and
    the client holds the same handle when they return or raise. *)
Theorem C4_connect_is_guarded_by_its_callers :
  forall (E : Environment) (config : JdbcConfig) (s : state) (h : handle),
  _connection s = Some h ->
  connect_fails E (jdbc_driver config) (jdbc_url config)
    [username config; password config] (jdbc_driver_path config) = None ->
  JdbcClient.connect E config s
  = (Ok true,
     {| trace := trace s ++
                 [Connect (jdbc_driver config) (jdbc_url config)
                    [username config; password config]
                    (jdbc_driver_path config) (Some (fresh s))];
        fresh := S (fresh s);
        _connection := Some (fresh s);
        client_bound := client_bound s;
        cursor := cursor s |}) /\
  (forall q n, kept s h (snd (JdbcClient.execute_query E config q n s))) /\
  (forall sch sys, kept s h (snd (JdbcClient.get_tables E config sch sys s))) /\
  (forall t sch, kept s h (snd (JdbcClient.get_columns E config t sch s))).
Proof.
  intros E config [t f c b cur] h Hc Hok. cbn in Hc. subst c.
  split; [unfold_program; rewrite Hok; reflexivity|].
  unfold kept. split; [|split]; intros; unfold_program; cbn;
    repeat split_goal; still_held.
Qed.

(** On the sample client that connected once: [connect] gives it a second
    connection, the three operations keep the one it has. *)
Lemma C4_on_a_connected_client :
  _connection connected_once = Some 0 /\
  JdbcClient.connect sample sample_config connected_once
  = (Ok true,
     {| trace := trace connected_once ++
                 [Connect (jdbc_driver sample_config) (jdbc_url sample_config)
                    [username sample_config; password sample_config]
                    (jdbc_driver_path sample_config)
                    (Some (fresh connected_once))];
        fresh := S (fresh connected_once);
        _connection := Some (fresh connected_once);
        client_bound := client_bound connected_once;
        cursor := cursor connected_once |}) /\
  (forall q n,
     kept connected_once 0
       (snd (JdbcClient.execute_query sample sample_config q n connected_once))) /\
  (forall sch sys,
     kept connected_once 0
       (snd (JdbcClient.get_tables sample sample_config sch sys connected_once))) /\
  (forall t sch,
     kept connected_once 0
       (snd (JdbcClient.get_columns sample sample_config t sch connected_once))).
Proof.
  assert (H : _connection connected_once = Some 0) by (vm_compute; reflexivity).
  split; [exact H|].
  exact (C4_connect_is_guarded_by_its_callers sample sample_config
           connected_once 0 H eq_refl).
Defined.

(** [connect] twice is not [connect] once: the second call opens a second
    connection on the driver, the client now holds handle 1 instead of 0, and
    connection 0 is left open. *)
Lemma C4_connect_twice_opens_two_connections :
  snd (JdbcClient.connect sample sample_config (entry [] 0)) = connected_once /\
  _connection connected_once = Some 0 /\
  _connection (snd (JdbcClient.connect sample sample_config connected_once))
  = Some 1 /\
  trace (snd (JdbcClient.connect sample sample_config connected_once))
  = [ Connect "org.h2.Driver" "jdbc:h2:mem:test" ["sa"; "secret"] "/opt/h2.jar"
        (Some 0);
      Connect "org.h2.Driver" "jdbc:h2:mem:test" ["sa"; "secret"] "/opt/h2.jar"
        (Some 1) ] /\
  snd (JdbcClient.connect sample sample_config connected_once) <> connected_once.
Proof.
  split; [reflexivity|].
  split; [vm_compute; reflexivity|].
  split; [vm_compute; reflexivity|].
  split; [vm_compute; reflexivity|].
  intros H. apply (f_equal _connection) in H. vm_compute in H. discriminate H.
Qed.

(** [close] returns normally from every state. *)
Lemma close_returns (E : Environment) (s : state) :
  exists s', JdbcClient.close E s = (Ok tt, s') /\ _connection s' = None
             /\ client_bound s' = client_bound s.
Proof.
  destruct s as [t f c b cur]. unfold_program. cbn.
  destruct c as [h|]; cbn; [|eauto].
  destruct (close_fails E h); cbn; eauto.
Qed.

(** C7: [close] returns normally from every state of the client, with or
    without a connection, and leaves the client without one; a second [close]
    right after it returns normally too and changes nothing. *)
Theorem C7_close_is_total_and_idempotent :
  forall (E : Environment) (s : state),
  exists s1,
    JdbcClient.close E s = (Ok tt, s1) /\
    _connection s1 = None /\
    JdbcClient.close E s1 = (Ok tt, s1) /\
    match _connection s with
    | None => s1 = s
    | Some h => trace s1 = (trace s ++ [ConnectionClose h])%list
    end.
Proof.
  intros E [t f c b cur]. unfold_program. cbn.
  destruct c as [h|]; cbn.
  - destruct (close_fails E h); cbn; eexists; repeat split.
  - eexists; repeat split.
Qed.

(** ** The operation boundary *)

Lemma close_client_if_bound_returns (E : Environment) (s : state) :
  exists s', close_client_if_bound E s = (Ok tt, s').
Proof.
  unfold close_client_if_bound, bind, get.
  destruct (client_bound s); [|unfold ret; eauto].
  destruct (close_returns E s) as (s' & H & _). eauto.
Qed.

(** The shape shared by the three handlers. *)
Lemma boundary_never_raises (E : Environment) (body : M response) (s : state) :
  exists resp s',
    try_finally (try_except body (fun e => ret (ErrorResponse (str E e))))
                (close_client_if_bound E) s = (Ok resp, s') /\
    resp = match fst (body s) with
           | Ok r => r
           | Raise e => ErrorResponse (str E e)
           end.
Proof.
  unfold try_finally, try_except, ret.
  destruct (body s) as [[r|e] s1]; cbv beta iota;
    destruct (close_client_if_bound_returns E s1) as (s2 & ->); eauto.
Qed.

(** C5: each of the three handlers returns normally from every state and for
    every argument dictionary, never raising; when its [try] block raised,
    whatever the exception (validation, configuration, connection, execution
    or catalog), what it returns is the error record with the text of that
    exception, and otherwise the result of the block. *)
Theorem C5_every_error_becomes_an_error_record :
  forall (E : Environment) (s : state),
  (forall a, exists resp s',
     execute_query E a s = (Ok resp, s') /\
     resp = match fst (execute_query_body E a s) with
            | Ok r => r
            | Raise e => ErrorResponse (str E e)
            end) /\
  (forall a, exists resp s',
     get_tables E a s = (Ok resp, s') /\
     resp = match fst (get_tables_body E a s) with
            | Ok r => r
            | Raise e => ErrorResponse (str E e)
            end) /\
  (forall a, exists resp s',
     get_columns E a s = (Ok resp, s') /\
     resp = match fst (get_columns_body E a s) with
            | Ok r => r
            | Raise e => ErrorResponse (str E e)
            end).
Proof.
  intros E s. split; [|split]; intros a; apply boundary_never_raises.
Qed.

Ltac releases :=
  split;
  [ reflexivity
  | eexists; split;
    [ repeat rewrite <- app_assoc;
      first [ reflexivity | symmetry; apply app_nil_r ]
    | cbn; rewrite ?Nat.eqb_refl; reflexivity ] ].

Lemma execute_query_releases (E : Environment) (a : query_arguments)
    (past : list event) (next : handle) :
  released past (snd (execute_query E a (entry past next))).
Proof.
  unfold released.
  destruct (QueryArgs_new a) as [e|args] eqn:Ha;
    unfold_program; rewrite Ha; cbn.
  - releases.
  - repeat split_goal; releases.
Qed.

Lemma get_tables_releases (E : Environment) (a : tables_arguments)
    (past : list event) (next : handle) :
  released past (snd (get_tables E a (entry past next))).
Proof.
  unfold released.
  destruct (GetTablesArgs_new a) as [e|args] eqn:Ha;
    unfold_program; rewrite Ha; cbn.
  - releases.
  - repeat split_goal; releases.
Qed.

Lemma get_columns_releases (E : Environment) (a : columns_arguments)
    (past : list event) (next : handle) :
  released past (snd (get_columns E a (entry past next))).
Proof.
  unfold released.
  destruct (GetColumnsArgs_new a) as [e|args] eqn:Ha;
    unfold_program; rewrite Ha; cbn.
  - releases.
  - repeat split_goal; releases.
Qed.

(** C6: when a handler returns, by whichever path, the client holds no
    connection and [close] has been called on every connection the
    invocation opened; this holds for the three handlers, for every
    argument dictionary and every behaviour of the driver. *)
Theorem C6_connection_released_on_every_exit :
  forall (E : Environment) (past : list event) (next : handle),
  (forall a, released past (snd (execute_query E a (entry past next)))) /\
  (forall a, released past (snd (get_tables E a (entry past next)))) /\
  (forall a, released past (snd (get_columns E a (entry past next)))).
Proof.
  intros E past next. split; [|split]; intros a.
  - apply execute_query_releases.
  - apply get_tables_releases.
  - apply get_columns_releases.
Qed.

(** ** Schema introspection *)

Lemma type_listed_table (t : option string) :
  type_listed (Some ["TABLE"]) t = true -> t = Some "TABLE".
Proof.
  destruct t as [ty|]; simpl; [|discriminate].
  rewrite orb_false_r. intros H. apply String.eqb_eq in H. congruence.
Qed.

(** C9: a successful [get_tables] with [include_system] false (given so, or
    left out) asked the driver for the types [["TABLE"]] only; the tables it
    returns are the entries of the catalog that match, in the catalog's
    order; each of them has the type TABLE, so that no entry of the catalog
    typed SYSTEM TABLE is among them; [count] is their number. *)
Theorem C9_ordinary_tables_only :
  forall (E : Environment) (a : tables_arguments) (past : list event)
         (next : handle) (r : TablesResult) (s' : state),
  arg_include_system a = Missing \/ arg_include_system a = Given false ->
  get_tables E a (entry past next) = (Ok (TablesResponse r), s') ->
  In (GetTables next (effective_schema (arg_schema a)) "%" (Some ["TABLE"]))
     (trace s') /\
  tables r
  = map JdbcClient.table_descriptor
      (filter (fun t =>
                 schema_matches E (effective_schema (arg_schema a)) (TABLE_SCHEM t)
                 && like E "%" (TABLE_NAME t)
                 && type_listed (Some ["TABLE"]) (TABLE_TYPE t))
              (catalog_tables E)) /\
  Forall (fun d => td_type d = Some "TABLE") (tables r) /\
  (forall t, In t (catalog_tables E) -> TABLE_TYPE t = Some "SYSTEM TABLE" ->
             ~ In (JdbcClient.table_descriptor t) (tables r)) /\
  count r = length (tables r).
Proof.
  intros E a past next r s' Hsys H.
  assert (Hargs : GetTablesArgs_new a
                  = inr {| gt_schema := effective_schema (arg_schema a);
                           include_system := false |}).
  { destruct a as [sch sys]. cbn in Hsys.
    unfold GetTablesArgs_new, defaulted_field. cbn.
    destruct sch as [|x|]; destruct Hsys as [-> | ->]; cbn; try reflexivity.
    all: exfalso; unfold_program; cbn in H; discriminate H. }
  assert (Hall : Forall (fun d => td_type d = Some "TABLE")
            (map JdbcClient.table_descriptor
               (filter (fun t =>
                  schema_matches E (effective_schema (arg_schema a)) (TABLE_SCHEM t)
                  && like E "%" (TABLE_NAME t)
                  && type_listed (Some ["TABLE"]) (TABLE_TYPE t))
                  (catalog_tables E)))).
  { apply Forall_forall. intros d Hd. apply in_map_iff in Hd.
    destruct Hd as (t & <- & Ht). apply filter_In in Ht. destruct Ht as [_ Ht].
    apply andb_true_iff in Ht. destruct Ht as [_ Ht].
    cbn. apply type_listed_table. exact Ht. }
  unfold_program. rewrite Hargs in H. cbn in H.
  repeat split_in H.
  all: injection H as <- <-; cbn;
    (split;
     [ repeat rewrite <- app_assoc; apply in_or_app; right; simpl; auto 8
     | split; [reflexivity|split; [exact Hall|split; [|reflexivity]]]]);
    intros t _ Hty Hin; rewrite Forall_forall in Hall;
    apply Hall in Hin; cbn in Hin; congruence.
Qed.

(** The catalog of the sample has a SYSTEM TABLE and a VIEW in the schema
    "public"; only its two ordinary tables are listed. *)
Lemma C9_public_tables :
  (arg_include_system sample_tables_call = Missing
   \/ arg_include_system sample_tables_call = Given false) /\
  get_tables sample sample_tables_call (entry [] 0)
  = (Ok (TablesResponse sample_tables_result), sample_tables_final) /\
  In (GetTables 0 (effective_schema (arg_schema sample_tables_call)) "%"
        (Some ["TABLE"]))
     (trace sample_tables_final) /\
  tables sample_tables_result
  = map JdbcClient.table_descriptor
      (filter (fun t =>
                 schema_matches sample
                   (effective_schema (arg_schema sample_tables_call))
                   (TABLE_SCHEM t)
                 && like sample "%" (TABLE_NAME t)
                 && type_listed (Some ["TABLE"]) (TABLE_TYPE t))
              (catalog_tables sample)) /\
  Forall (fun d => td_type d = Some "TABLE") (tables sample_tables_result) /\
  (forall t, In t (catalog_tables sample) ->
             TABLE_TYPE t = Some "SYSTEM TABLE" ->
             ~ In (JdbcClient.table_descriptor t) (tables sample_tables_result)) /\
  count sample_tables_result = length (tables sample_tables_result).
Proof.
  assert (H1 : arg_include_system sample_tables_call = Missing
               \/ arg_include_system sample_tables_call = Given false)
    by (right; reflexivity).
  assert (H2 : get_tables sample sample_tables_call (entry [] 0)
               = (Ok (TablesResponse sample_tables_result), sample_tables_final))
    by (vm_compute; reflexivity).
  split; [exact H1|]. split; [exact H2|].
  exact (C9_ordinary_tables_only sample sample_tables_call [] 0
           sample_tables_result sample_tables_final H1 H2).
Defined.

(** C10: in the record of a successful [get_columns], [table_name] is the
    table name of the arguments with its surrounding white space removed and
    [schema] is the schema of the arguments as given, null when there was
    none; this holds whatever the driver and its catalog answer, so neither
    field is read from them. *)
Theorem C10_table_name_and_schema_echo_the_arguments :
  forall (E : Environment) (a : columns_arguments) (past : list event)
         (next : handle) (r : SchemaDescriptor) (s' : state),
  get_columns E a (entry past next) = (Ok (ColumnsResponse r), s') ->
  exists t,
    arg_table_name a = Given t /\
    sd_table_name r = PyStr.strip t /\
    sd_schema r = effective_schema (arg_columns_schema a).
Proof.
  intros E [t sch] past next r s' H.
  unfold_program.
  unfold GetColumnsArgs_new, validated_field, defaulted_field,
    validate_table_name in H.
  cbn in H.
  destruct t as [|t|], sch as [|x|]; cbn in H; try discriminate H;
    repeat split_in H; injection H as <- <-; exists t; repeat split.
Qed.

(** The table name " users " comes back as "users", the absent schema as
    null. *)
Lemma C10_users_table :
  get_columns sample sample_columns_call (entry [] 0)
  = (Ok (ColumnsResponse sample_columns_result), sample_columns_final) /\
  exists t,
    arg_table_name sample_columns_call = Given t /\
    sd_table_name sample_columns_result = PyStr.strip t /\
    sd_schema sample_columns_result
    = effective_schema (arg_columns_schema sample_columns_call).
Proof.
  assert (H : get_columns sample sample_columns_call (entry [] 0)
              = (Ok (ColumnsResponse sample_columns_result),
                 sample_columns_final))
    by (vm_compute; reflexivity).
  split; [exact H|].
  exact (C10_table_name_and_schema_echo_the_arguments sample
           sample_columns_call [] 0 sample_columns_result
           sample_columns_final H).
Defined.

(** * Further properties of the code *)

(** ** The validators *)

Lemma lstrip_of_nonspace (c : ascii) (r : string) :
  PyStr.isspace c = false -> PyStr.lstrip (String c r) = String c r.
Proof. intros H. simpl. rewrite H. reflexivity. Qed.

Lemma rstrip_idempotent (s : string) :
  PyStr.rstrip (PyStr.rstrip s) = PyStr.rstrip s.
Proof.
  induction s as [|c s IH]; [reflexivity|].
  simpl. destruct (PyStr.rstrip s) as [|d r] eqn:Hr.
  - destruct (PyStr.isspace c) eqn:Hc; [reflexivity|].
    simpl. rewrite Hc. reflexivity.
  - change (PyStr.rstrip (String c (String d r))) with
      (match PyStr.rstrip (String d r) with
       | EmptyString =>
           if PyStr.isspace c then EmptyString else String c EmptyString
       | String _ _ as r' => String c r'
       end).
    rewrite IH. reflexivity.
Qed.

Lemma rstrip_last_char (s : string) :
  match last_char (PyStr.rstrip s) with
  | Some c => PyStr.isspace c = false
  | None => PyStr.rstrip s = EmptyString
  end.
Proof.
  induction s as [|c s IH]; [reflexivity|].
  simpl. destruct (PyStr.rstrip s) as [|d r] eqn:Hr.
  - destruct (PyStr.isspace c) eqn:Hc; simpl; auto.
  - change (last_char (String c (String d r))) with (last_char (String d r)).
    destruct (last_char (String d r)); [exact IH|discriminate IH].
Qed.

(** [strip] applied twice is [strip]. *)
Lemma strip_idempotent (s : string) :
  PyStr.strip (PyStr.strip s) = PyStr.strip s.
Proof.
  unfold PyStr.strip.
  destruct (PyStr.lstrip s) as [|d l] eqn:Hl; [reflexivity|].
  pose proof (lstrip_no_leading_space _ _ _ Hl) as Hd.
  destruct (rstrip_cons_nonspace d l Hd) as [r Hr].
  rewrite Hr, (lstrip_of_nonspace d r Hd), <- Hr.
  apply rstrip_idempotent.
Qed.

(** What [strip] returns, when it is not empty, is trimmed. *)
Lemma strip_trimmed (s : string) :
  PyStr.strip s <> EmptyString -> trimmed (PyStr.strip s).
Proof.
  intros Hne. split.
  - destruct (PyStr.strip s) as [|c r] eqn:Hs; [congruence|].
    exists c, r. split; [reflexivity|].
    exact (strip_no_leading_space s c r Hs).
  - unfold PyStr.strip in *.
    pose proof (rstrip_last_char (PyStr.lstrip s)) as H.
    destruct (last_char (PyStr.rstrip (PyStr.lstrip s))) as [c|];
      [eauto|congruence].
Qed.

(** X1: a statement that [validate_query] accepts comes back trimmed (it
    neither starts nor ends with white space), and validating what came back
    accepts it again and returns it unchanged. *)
Theorem validate_query_normalises :
  forall (v q : string),
  validate_query v = inr q ->
  trimmed q /\ validate_query q = inr q.
Proof.
  intros v q H.
  pose proof (C := strip_idempotent v).
  unfold validate_query in H.
  destruct (PyStr.truthy v) eqn:Htv; cbn in H; [|discriminate H].
  destruct (PyStr.truthy (PyStr.strip v)) eqn:Hts; cbn in H; [|discriminate H].
  destruct (PyStr.startswith (PyStr.upper (PyStr.strip v)) "SELECT") eqn:Hp;
    cbn in H; [|discriminate H].
  injection H as <-. split.
  - apply strip_trimmed. apply truthy_true. exact Hts.
  - unfold validate_query. rewrite C, Hts, Hp. reflexivity.
Qed.

Lemma validate_query_normalises_example :
  validate_query "  select id from t " = inr "select id from t" /\
  trimmed "select id from t" /\
  validate_query "select id from t" = inr "select id from t".
Proof.
  assert (H : validate_query "  select id from t " = inr "select id from t")
    by reflexivity.
  split; [exact H|].
  exact (validate_query_normalises "  select id from t " "select id from t" H).
Defined.

(** X2: [validate_table_name] accepts a name exactly when it is not blank;
    what it returns is the name without its surrounding white space, which is
    trimmed and is accepted unchanged when validated again.  A blank name is
    refused with the message of the validator. *)
Theorem validate_table_name_normalises :
  forall (v : string),
  match validate_table_name v with
  | inr t => t = PyStr.strip v /\ trimmed t /\ validate_table_name t = inr t
  | inl msg => PyStr.strip v = EmptyString /\ msg = "Table name cannot be empty"
  end.
Proof.
  intros v. pose proof (C := strip_idempotent v).
  unfold validate_table_name.
  destruct (PyStr.truthy v) eqn:Htv; cbn.
  - destruct (PyStr.truthy (PyStr.strip v)) eqn:Hts; cbn.
    + split; [reflexivity|]. split.
      * apply strip_trimmed. apply truthy_true. exact Hts.
      * rewrite C, Hts. reflexivity.
    + split; [apply truthy_false; exact Hts|reflexivity].
  - apply truthy_false in Htv. subst v. split; reflexivity.
Qed.

(** X3: a blank table name never reaches the driver: the [get_columns]
    handler answers the error record of the validator and leaves the state
    as it was, whatever the settings and the schema argument are. *)
Theorem blank_table_name_is_refused_before_any_call :
  forall (E : Environment) (v : string) (sch : arg (option string))
         (past : list event) (next : handle),
  PyStr.strip v = EmptyString ->
  get_columns E {| arg_table_name := Given v; arg_columns_schema := sch |}
              (entry past next)
  = (Ok (ErrorResponse
           (str E (ValidationError "GetColumnsArgs"
                     (("table_name", ValueErrorRaised "Table name cannot be empty")
                        :: problems (defaulted_field "schema" (@None string) sch))))),
     entry past next).
Proof.
  intros E v sch past next Hv.
  assert (Hval : validate_table_name v = inl "Table name cannot be empty").
  { unfold validate_table_name. rewrite Hv. cbn. rewrite orb_true_r.
    reflexivity. }
  unfold_program. unfold GetColumnsArgs_new, validated_field. cbn.
  rewrite Hval. destruct sch; reflexivity.
Qed.

Lemma blank_table_name_example :
  PyStr.strip "   " = EmptyString /\
  get_columns sample {| arg_table_name := Given "   ";
                        arg_columns_schema := Missing |} (entry [] 0)
  = (Ok (ErrorResponse
           (str sample
              (ValidationError "GetColumnsArgs"
                 (("table_name", ValueErrorRaised "Table name cannot be empty")
                    :: problems (defaulted_field "schema" (@None string) Missing))))),
     entry [] 0).
Proof.
  assert (H : PyStr.strip "   " = EmptyString) by reflexivity.
  split; [exact H|].
  exact (blank_table_name_is_refused_before_any_call sample "   " Missing [] 0 H).
Defined.

(** X4: a [max_rows] below 1 or above 1000 is refused before anything else
    happens: the [execute_query] handler answers an error record and leaves
    the state as it was, so no query runs with a bound outside [1,1000]. *)
Theorem max_rows_out_of_range_is_refused :
  forall (E : Environment) (q : arg string) (n : Z)
         (past : list event) (next : handle),
  (n < 1 \/ 1000 < n)%Z ->
  exists errors,
    In ("max_rows", if (n <? 1)%Z then NotGreaterEqual 1 else NotLessEqual 1000)
       errors /\
    execute_query E {| arg_query := q; arg_max_rows := Given n |}
                  (entry past next)
    = (Ok (ErrorResponse (str E (ValidationError "QueryArgs" errors))),
       entry past next).
Proof.
  intros E q n past next Hn.
  unfold_program. unfold QueryArgs_new, max_rows_field. cbn.
  destruct (Z.ltb_spec n 1) as [Hlt|Hge].
  - assert (H1 : (1 <=? n)%Z = false) by (apply Z.leb_gt; lia).
    rewrite H1. cbn.
    destruct (validated_field "query" validate_query q) as [l|q'];
      eexists; (split; [|reflexivity]); cbn;
      try (apply in_or_app; right); left; reflexivity.
  - assert (H1 : (1 <=? n)%Z = true) by (apply Z.leb_le; lia).
    assert (H2 : (n <=? 1000)%Z = false) by (apply Z.leb_gt; lia).
    rewrite H1, H2. cbn.
    destruct (validated_field "query" validate_query q) as [l|q'];
      eexists; (split; [|reflexivity]); cbn;
      try (apply in_or_app; right); left; reflexivity.
Qed.

Lemma max_rows_out_of_range_example :
  (1001 < 1 \/ 1000 < 1001)%Z /\
  exists errors,
    In ("max_rows", if (1001 <? 1)%Z then NotGreaterEqual 1 else NotLessEqual 1000)
       errors /\
    execute_query sample {| arg_query := Given "SELECT 1";
                            arg_max_rows := Given 1001%Z |} (entry [] 0)
    = (Ok (ErrorResponse (str sample (ValidationError "QueryArgs" errors))),
       entry [] 0).
Proof.
  assert (H : (1001 < 1 \/ 1000 < 1001)%Z) by (right; lia).
  split; [exact H|].
  exact (max_rows_out_of_range_is_refused sample (Given "SELECT 1") 1001 [] 0 H).
Defined.

(** ** Failures of the driver *)

Lemma healthy_facts (E : Environment) (h : handle) :
  healthy E h = true ->
  negb (PyStr.truthy (jdbc_url (env_config E))) = false /\
  negb (PyStr.truthy (jdbc_driver (env_config E))) = false /\
  negb (PyStr.truthy (jdbc_driver_path (env_config E))) = false /\
  negb (path_exists E (jdbc_driver_path (env_config E))) = false /\
  connect_fails E (jdbc_driver (env_config E)) (jdbc_url (env_config E))
    [username (env_config E); password (env_config E)]
    (jdbc_driver_path (env_config E)) = None /\
  cursor_fails E h = None /\
  cursor_close_fails E h = None /\
  metadata_fails E h = None.
Proof.
  unfold healthy, config_verified, no_error. intros H.
  repeat (apply andb_true_iff in H; destruct H as [H ?]).
  repeat match goal with
         | Hx : match ?o with None => true | Some _ => false end = true |- _ =>
             destruct o; [discriminate Hx|clear Hx]
         end.
  rewrite H. repeat match goal with Hx : _ = true |- _ => rewrite Hx; clear Hx end.
  repeat split.
Qed.

Lemma config_verified_facts (E : Environment) :
  config_verified E (env_config E) = true ->
  negb (PyStr.truthy (jdbc_url (env_config E))) = false /\
  negb (PyStr.truthy (jdbc_driver (env_config E))) = false /\
  negb (PyStr.truthy (jdbc_driver_path (env_config E))) = false /\
  negb (path_exists E (jdbc_driver_path (env_config E))) = false.
Proof.
  unfold config_verified. intros H.
  repeat (apply andb_true_iff in H; destruct H as [H ?]).
  rewrite H. repeat match goal with Hx : _ = true |- _ => rewrite Hx; clear Hx end.
  repeat split.
Qed.

(** Rewrites the goal with every answer of the environment that is known. *)
Ltac known_answers :=
  repeat match goal with
         | Hx : ?x = _ |- context [?x] => rewrite Hx
         end.

(** X5: when the driver refuses the connection, each of the three handlers
    answers the error record "Connection failed: " followed by the driver's
    message, with no prefix of the operation; the driver was asked to connect
    once and nothing else: no cursor, no statement, no [close]. *)
Theorem connection_refused_is_reported_once :
  forall (E : Environment) (msg : string) (past : list event) (next : handle),
  config_verified E (env_config E) = true ->
  connect_fails E (jdbc_driver (env_config E)) (jdbc_url (env_config E))
    [username (env_config E); password (env_config E)]
    (jdbc_driver_path (env_config E)) = Some msg ->
  (forall a args, QueryArgs_new a = inr args ->
     execute_query E a (entry past next) = connection_refused E msg past next) /\
  (forall a args, GetTablesArgs_new a = inr args ->
     get_tables E a (entry past next) = connection_refused E msg past next) /\
  (forall a args, GetColumnsArgs_new a = inr args ->
     get_columns E a (entry past next) = connection_refused E msg past next).
Proof.
  intros E msg past next Hcfg Hconn.
  destruct (config_verified_facts E Hcfg) as (H1 & H2 & H3 & H4).
  split; [|split]; intros a args Ha; unfold_program;
    unfold connection_refused, connect_event;
    rewrite Ha; cbn; rewrite H1, H2, H3, H4; cbn; rewrite Hconn; reflexivity.
Qed.

Lemma connection_refused_example :
  config_verified (unreachable "timeout") (env_config (unreachable "timeout"))
  = true /\
  connect_fails (unreachable "timeout")
    (jdbc_driver (env_config (unreachable "timeout")))
    (jdbc_url (env_config (unreachable "timeout")))
    [username (env_config (unreachable "timeout"));
     password (env_config (unreachable "timeout"))]
    (jdbc_driver_path (env_config (unreachable "timeout"))) = Some "timeout" /\
  (forall a args, QueryArgs_new a = inr args ->
     execute_query (unreachable "timeout") a (entry [] 0)
     = connection_refused (unreachable "timeout") "timeout" [] 0) /\
  (forall a args, GetTablesArgs_new a = inr args ->
     get_tables (unreachable "timeout") a (entry [] 0)
     = connection_refused (unreachable "timeout") "timeout" [] 0) /\
  (forall a args, GetColumnsArgs_new a = inr args ->
     get_columns (unreachable "timeout") a (entry [] 0)
     = connection_refused (unreachable "timeout") "timeout" [] 0).
Proof.
  assert (H : config_verified (unreachable "timeout")
                (env_config (unreachable "timeout")) = true)
    by (vm_compute; reflexivity).
  split; [exact H|]. split; [reflexivity|].
  exact (connection_refused_is_reported_once (unreachable "timeout")
           "timeout" [] 0 H eq_refl).
Defined.

(** X6: when the driver rejects the statement, the [execute_query] handler
    answers "Query failed: " followed by the driver's message; the statement
    was sent once, no row was fetched, and the cursor and the connection were
    closed before the handler returned. *)
Theorem rejected_statement_is_reported_and_released :
  forall (E : Environment) (a : query_arguments) (args : QueryArgs)
         (msg : string) (past : list event) (next : handle),
  healthy E next = true ->
  QueryArgs_new a = inr args ->
  run_query E (query args) = inl msg ->
  fst (execute_query E a (entry past next))
  = Ok (ErrorResponse ("Query failed: " ++ msg)) /\
  trace (snd (execute_query E a (entry past next)))
  = (past ++ [ connect_event E (Some next); OpenCursor next;
               Execute next (query args); CursorClose next;
               ConnectionClose next ])%list /\
  _connection (snd (execute_query E a (entry past next))) = None.
Proof.
  intros E a args msg past next Hh Ha Hq.
  destruct (healthy_facts E next Hh) as (H1 & H2 & H3 & H4 & H5 & H6 & H7 & H8).
  unfold_program. unfold connect_event. rewrite Ha. cbn.
  rewrite H1, H2, H3, H4. cbn. rewrite H5. cbn. rewrite H6. cbn.
  rewrite Hq. cbn. rewrite H7. cbn.
  destruct (close_fails E next); cbn; repeat rewrite <- app_assoc;
    repeat split.
Qed.

Lemma rejected_statement_example :
  healthy rejecting 0 = true /\
  QueryArgs_new sample_query = inr sample_args /\
  run_query rejecting (query sample_args) = inl "no such table" /\
  fst (execute_query rejecting sample_query (entry [] 0))
  = Ok (ErrorResponse ("Query failed: " ++ "no such table")) /\
  trace (snd (execute_query rejecting sample_query (entry [] 0)))
  = ([] ++ [ connect_event rejecting (Some 0); OpenCursor 0;
             Execute 0 (query sample_args); CursorClose 0;
             ConnectionClose 0 ])%list /\
  _connection (snd (execute_query rejecting sample_query (entry [] 0))) = None.
Proof.
  assert (H : healthy rejecting 0 = true) by (vm_compute; reflexivity).
  split; [exact H|]. split; [reflexivity|]. split; [reflexivity|].
  exact (rejected_statement_is_reported_and_released rejecting sample_query
           sample_args "no such table" [] 0 H eq_refl eq_refl).
Defined.

(** X7: when the statement runs but gives no result set, so that
    [cursor.description] is [None], the [execute_query] handler answers an
    error record that starts with "Query failed: "; it does not fetch, and it
    closes the cursor and the connection. *)
Theorem statement_without_result_set_is_an_error :
  forall (E : Environment) (a : query_arguments) (args : QueryArgs)
         (past : list event) (next : handle),
  healthy E next = true ->
  QueryArgs_new a = inr args ->
  run_query E (query args) = inr None ->
  fst (execute_query E a (entry past next))
  = Ok (ErrorResponse ("Query failed: " ++ "'NoneType' object is not iterable")) /\
  trace (snd (execute_query E a (entry past next)))
  = (past ++ [ connect_event E (Some next); OpenCursor next;
               Execute next (query args); CursorClose next;
               ConnectionClose next ])%list.
Proof.
  intros E a args past next Hh Ha Hq.
  destruct (healthy_facts E next Hh) as (H1 & H2 & H3 & H4 & H5 & H6 & H7 & H8).
  unfold_program. unfold connect_event. rewrite Ha. cbn.
  rewrite H1, H2, H3, H4. cbn. rewrite H5. cbn. rewrite H6. cbn.
  rewrite Hq. cbn. rewrite H7. cbn.
  destruct (close_fails E next); cbn; repeat rewrite <- app_assoc;
    repeat split.
Qed.

Lemma statement_without_result_set_example :
  healthy silent 0 = true /\
  QueryArgs_new sample_query = inr sample_args /\
  run_query silent (query sample_args) = inr None /\
  fst (execute_query silent sample_query (entry [] 0))
  = Ok (ErrorResponse ("Query failed: " ++ "'NoneType' object is not iterable")) /\
  trace (snd (execute_query silent sample_query (entry [] 0)))
  = ([] ++ [ connect_event silent (Some 0); OpenCursor 0;
             Execute 0 (query sample_args); CursorClose 0;
             ConnectionClose 0 ])%list.
Proof.
  assert (H : healthy silent 0 = true) by (vm_compute; reflexivity).
  split; [exact H|]. split; [reflexivity|]. split; [reflexivity|].
  exact (statement_without_result_set_is_an_error silent sample_query
           sample_args [] 0 H eq_refl eq_refl).
Defined.

(** ** When a query succeeds *)

Lemma healthy_intro (E : Environment) (h : handle) :
  negb (PyStr.truthy (jdbc_url (env_config E))) = false ->
  negb (PyStr.truthy (jdbc_driver (env_config E))) = false ->
  negb (PyStr.truthy (jdbc_driver_path (env_config E))) = false ->
  negb (path_exists E (jdbc_driver_path (env_config E))) = false ->
  connect_fails E (jdbc_driver (env_config E)) (jdbc_url (env_config E))
    [username (env_config E); password (env_config E)]
    (jdbc_driver_path (env_config E)) = None ->
  cursor_fails E h = None ->
  cursor_close_fails E h = None ->
  metadata_fails E h = None ->
  healthy E h = true.
Proof.
  unfold healthy, config_verified. intros H1 H2 H3 H4 -> -> -> ->.
  apply negb_false_iff in H1, H2, H3, H4. rewrite H1, H2, H3, H4. reflexivity.
Qed.

(** X8: the [execute_query] handler answers a query result exactly when the
    arguments are valid, the settings pass the checks, the driver connects,
    opens and closes the cursor, runs the statement with a result set,
    serves the [fetchmany] and the [fetchone] without an error, and every
    value of the rows that are returned can be serialised.  An error of
    [Connection.close] does not turn the answer into an error, and values in
    rows beyond [max_rows] are not looked at. *)
Theorem execute_query_succeeds_exactly_when :
  forall (E : Environment) (a : query_arguments) (past : list event)
         (next : handle),
  (exists r, fst (execute_query E a (entry past next)) = Ok (QueryResponse r))
  <->
  (exists args rs,
     QueryArgs_new a = inr args /\
     config_verified E (env_config E) = true /\
     connect_fails E (jdbc_driver (env_config E)) (jdbc_url (env_config E))
       [username (env_config E); password (env_config E)]
       (jdbc_driver_path (env_config E)) = None /\
     cursor_fails E next = None /\
     cursor_close_fails E next = None /\
     run_query E (query args) = inr (Some rs) /\
     fetchmany_fails E next (max_rows args) = None /\
     fetchone_fails E next = None /\
     first_refused
       (concat (firstn (Z.to_nat (max_rows args)) (rs_rows rs))) = None).
Proof.
  intros E a past next. split.
  - intros [r H].
    destruct (QueryArgs_new a) as [e|args] eqn:Ha;
      unfold_program; rewrite Ha in H; cbn in H; [discriminate H|].
    exists args.
    repeat split_in H.
    all: eexists; split; [reflexivity|]; unfold config_verified;
      repeat match goal with
             | Hx : negb _ = false |- _ => apply negb_false_iff in Hx
             end;
      subst; known_answers; repeat split; first [reflexivity | assumption].
  - intros (args & rs & Ha & Hcfg & H5 & H6 & H7 & Hq & Hfm & Hfo & Hj).
    destruct (config_verified_facts E Hcfg) as (H1 & H2 & H3 & H4).
    unfold_program. rewrite Ha. cbn.
    rewrite H1, H2, H3, H4. cbn. rewrite H5. cbn. rewrite H6. cbn.
    rewrite Hq. cbn. rewrite Hfm. cbn. rewrite Hfo. cbn.
    destruct (skipn (Z.to_nat (max_rows args)) (rs_rows rs)); cbn;
      rewrite H7; cbn; rewrite Hj; cbn;
      destruct (close_fails E next); cbn; eexists; reflexivity.
Qed.

(** X9: when the rows were fetched and a value of the rows to return cannot
    be serialised, the [execute_query] handler answers an error record that
    names the type of the first such value; by then the statement has run
    and rows were fetched, and the cursor and the connection are closed all
    the same. *)
Theorem unserialisable_value_is_an_error :
  forall (E : Environment) (a : query_arguments) (args : QueryArgs)
         (rs : ResultSet) (t : string) (past : list event) (next : handle),
  healthy E next = true ->
  QueryArgs_new a = inr args ->
  run_query E (query args) = inr (Some rs) ->
  fetchmany_fails E next (max_rows args) = None ->
  fetchone_fails E next = None ->
  first_refused (concat (firstn (Z.to_nat (max_rows args)) (rs_rows rs)))
  = Some t ->
  fst (execute_query E a (entry past next))
  = Ok (ErrorResponse ("Object of type " ++ t ++ " is not JSON serializable")) /\
  trace (snd (execute_query E a (entry past next)))
  = (past ++ [ connect_event E (Some next); OpenCursor next;
               Execute next (query args); FetchMany next (max_rows args);
               FetchOne next; CursorClose next; ConnectionClose next ])%list.
Proof.
  intros E a args rs t past next Hh Ha Hq Hfm Hfo Hj.
  destruct (healthy_facts E next Hh) as (H1 & H2 & H3 & H4 & H5 & H6 & H7 & H8).
  unfold_program. unfold connect_event. rewrite Ha. cbn.
  rewrite H1, H2, H3, H4. cbn. rewrite H5. cbn. rewrite H6. cbn.
  rewrite Hq. cbn. rewrite Hfm. cbn. rewrite Hfo. cbn.
  destruct (skipn (Z.to_nat (max_rows args)) (rs_rows rs)); cbn;
    rewrite H7; cbn; rewrite Hj; cbn;
    destruct (close_fails E next); cbn; repeat rewrite <- app_assoc;
    repeat split.
Qed.

Lemma unserialisable_value_example :
  healthy with_decimal 0 = true /\
  QueryArgs_new sample_query = inr sample_args /\
  run_query with_decimal (query sample_args) = inr (Some decimal_rows) /\
  fetchmany_fails with_decimal 0 (max_rows sample_args) = None /\
  fetchone_fails with_decimal 0 = None /\
  first_refused
    (concat (firstn (Z.to_nat (max_rows sample_args)) (rs_rows decimal_rows)))
  = Some "Decimal" /\
  fst (execute_query with_decimal sample_query (entry [] 0))
  = Ok (ErrorResponse
          ("Object of type " ++ "Decimal" ++ " is not JSON serializable")) /\
  trace (snd (execute_query with_decimal sample_query (entry [] 0)))
  = ([] ++ [ connect_event with_decimal (Some 0); OpenCursor 0;
             Execute 0 (query sample_args);
             FetchMany 0 (max_rows sample_args);
             FetchOne 0; CursorClose 0; ConnectionClose 0 ])%list.
Proof.
  assert (H : healthy with_decimal 0 = true) by (vm_compute; reflexivity).
  split; [exact H|]. split; [reflexivity|]. split; [reflexivity|].
  split; [reflexivity|]. split; [reflexivity|]. split; [reflexivity|].
  exact (unserialisable_value_is_an_error with_decimal sample_query
           sample_args decimal_rows "Decimal" [] 0 H eq_refl eq_refl eq_refl
           eq_refl eq_refl).
Defined.

Lemma firstn_all_when_skipn_nil {A} (n : nat) (l : list A) :
  skipn n l = [] -> firstn n l = l.
Proof.
  intros H. rewrite <- (firstn_skipn n l) at 2. rewrite H.
  symmetry. apply app_nil_r.
Qed.

(** X10: in a successful [execute_query], [has_more] false means that the
    rows returned are the whole result set of the statement, and [has_more]
    true means that exactly [max_rows] rows were returned. *)
Theorem has_more_tells_whether_the_rows_are_complete :
  forall (E : Environment) (a : query_arguments) (past : list event)
         (next : handle) (r : QueryResult) (s' : state),
  execute_query E a (entry past next) = (Ok (QueryResponse r), s') ->
  exists args rs,
    QueryArgs_new a = inr args /\
    run_query E (query args) = inr (Some rs) /\
    if has_more r
    then Z.of_nat (length (rows r)) = max_rows args
    else rows r = rs_rows rs.
Proof.
  intros E a past next r s' H.
  destruct (execute_query_success _ _ _ _ _ _ H) as (args & rs & Ha & Hq & -> & _).
  destruct (QueryArgs_new_ok _ _ Ha) as (v & _ & _ & _ & Hrange).
  exists args, rs. split; [exact Ha|]. split; [exact Hq|]. cbn.
  destruct (skipn (Z.to_nat (max_rows args)) (rs_rows rs)) eqn:Hs.
  - apply firstn_all_when_skipn_nil. exact Hs.
  - assert (Hlt : Z.to_nat (max_rows args) < length (rs_rows rs)).
    { apply skipn_nonempty_iff. rewrite Hs. reflexivity. }
    rewrite length_firstn. lia.
Qed.

Lemma has_more_example :
  execute_query sample sample_query (entry [] 0)
  = (Ok (QueryResponse sample_result), sample_final) /\
  exists args rs,
    QueryArgs_new sample_query = inr args /\
    run_query sample (query args) = inr (Some rs) /\
    if has_more sample_result
    then Z.of_nat (length (rows sample_result)) = max_rows args
    else rows sample_result = rs_rows rs.
Proof.
  assert (H : execute_query sample sample_query (entry [] 0)
              = (Ok (QueryResponse sample_result), sample_final))
    by (vm_compute; reflexivity).
  split; [exact H|].
  exact (has_more_tells_whether_the_rows_are_complete sample sample_query
           [] 0 sample_result sample_final H).
Defined.

(** ** Listing tables *)

(** The table list of a call, from its validated arguments. *)
Lemma get_tables_answer (E : Environment) (a : tables_arguments)
    (past : list event) (next : handle) (r : TablesResult) :
  fst (get_tables E a (entry past next)) = Ok (TablesResponse r) ->
  exists args,
    GetTablesArgs_new a = inr args /\
    healthy E next = true /\
    tables_fails E (gt_schema args)
      (if negb (include_system args) then Some ["TABLE"] else None) = None /\
    r = {| tables :=
             map JdbcClient.table_descriptor
               (listed_tables E (gt_schema args)
                  (if negb (include_system args) then Some ["TABLE"] else None));
           count :=
             length
               (map JdbcClient.table_descriptor
                  (listed_tables E (gt_schema args)
                     (if negb (include_system args) then Some ["TABLE"]
                      else None))) |}.
Proof.
  intros H.
  destruct (GetTablesArgs_new a) as [e|args] eqn:Ha;
    unfold_program; rewrite Ha in H; cbn in H; [discriminate H|].
  exists args.
  repeat split_in H.
  all: injection H as <-; split; [reflexivity|];
    split; [apply healthy_intro; assumption|];
    split; [first [assumption|reflexivity]|reflexivity].
Qed.

(** A call that finds the driver willing answers its table list. *)
Lemma get_tables_answers (E : Environment) (a : tables_arguments)
    (args : GetTablesArgs) (past : list event) (next : handle) :
  GetTablesArgs_new a = inr args ->
  healthy E next = true ->
  tables_fails E (gt_schema args)
      (if negb (include_system args) then Some ["TABLE"] else None) = None ->
  fst (get_tables E a (entry past next))
  = Ok (TablesResponse
          {| tables :=
               map JdbcClient.table_descriptor
                 (listed_tables E (gt_schema args)
                    (if negb (include_system args) then Some ["TABLE"]
                     else None));
             count :=
               length
                 (map JdbcClient.table_descriptor
                    (listed_tables E (gt_schema args)
                       (if negb (include_system args) then Some ["TABLE"]
                        else None))) |}).
Proof.
  intros Ha Hh Ht.
  destruct (healthy_facts E next Hh) as (H1 & H2 & H3 & H4 & H5 & H6 & H7 & H8).
  unfold_program. rewrite Ha. cbn.
  rewrite H1, H2, H3, H4. cbn. rewrite H5. cbn. rewrite H6. cbn.
  rewrite H8. cbn. rewrite Ht. cbn. rewrite H7. cbn.
  destruct (close_fails E next); reflexivity.
Qed.

(** X11: the [get_tables] handler answers a table list exactly when the
    arguments are valid, the settings pass the checks, the driver connects,
    opens the cursor, hands out its metadata, lists the tables and closes the
    cursor without an error.  The list is then what [getTables] answers for
    the schema argument, the name pattern "%" and the types [["TABLE"]], or
    every type when [include_system] is true, in the catalog's order, and
    [count] is its length. *)
Theorem get_tables_succeeds_exactly_when :
  forall (E : Environment) (a : tables_arguments) (past : list event)
         (next : handle) (r : TablesResult),
  fst (get_tables E a (entry past next)) = Ok (TablesResponse r)
  <->
  (exists args,
     GetTablesArgs_new a = inr args /\
     healthy E next = true /\
     tables_fails E (gt_schema args)
      (if negb (include_system args) then Some ["TABLE"] else None) = None /\
     r = {| tables :=
              map JdbcClient.table_descriptor
                (listed_tables E (gt_schema args)
                   (if negb (include_system args) then Some ["TABLE"] else None));
            count :=
              length
                (map JdbcClient.table_descriptor
                   (listed_tables E (gt_schema args)
                      (if negb (include_system args) then Some ["TABLE"]
                       else None))) |}).
Proof.
  intros E a past next r. split.
  - apply get_tables_answer.
  - intros (args & Ha & Hh & Ht & ->).
    apply get_tables_answers; assumption.
Qed.

(** ** Describing a table *)

(** X13: the [get_columns] handler answers a table description exactly when
    the arguments are valid, the settings pass the checks, the driver
    connects, opens and closes the cursor, hands out its metadata and answers
    the three catalog calls.  The description then holds the columns, the
    primary key columns and the imported keys as the catalog gave them, in
    its order; a table for which the catalog knows no column or no key gets
    empty lists, not an error. *)
Theorem get_columns_succeeds_exactly_when :
  forall (E : Environment) (a : columns_arguments) (past : list event)
         (next : handle) (r : SchemaDescriptor),
  fst (get_columns E a (entry past next)) = Ok (ColumnsResponse r)
  <->
  (exists args cols pks fks,
     GetColumnsArgs_new a = inr args /\
     healthy E next = true /\
     table_columns E (gc_schema args) (table_name args) = inr cols /\
     primary_keys E (gc_schema args) (table_name args) = inr pks /\
     imported_keys E (gc_schema args) (table_name args) = inr fks /\
     r = {| sd_table_name := table_name args;
            sd_schema := gc_schema args;
            sd_columns := map JdbcClient.column_descriptor cols;
            sd_primary_keys := pks;
            sd_foreign_keys := map JdbcClient.foreign_key_descriptor fks |}).
Proof.
  intros E a past next r.
  split.
  - intros H.
    destruct (GetColumnsArgs_new a) as [e|args] eqn:Ha;
      unfold_program; rewrite Ha in H; cbn in H; [discriminate H|].
    exists args.
    repeat split_in H.
    all: injection H as <-; do 3 eexists; split; [reflexivity|];
      split; [apply healthy_intro; assumption|];
      repeat split; reflexivity.
  - intros (args & cols & pks & fks & Ha & Hh & Hc & Hp & Hf & ->).
    destruct (healthy_facts E next Hh) as (H1 & H2 & H3 & H4 & H5 & H6 & H7 & H8).
    unfold_program. rewrite Ha. cbn.
    rewrite H1, H2, H3, H4. cbn. rewrite H5. cbn. rewrite H6. cbn.
    rewrite H8. cbn. rewrite Hc. cbn. rewrite Hp. cbn. rewrite Hf. cbn.
    rewrite H7. cbn.
    destruct (close_fails E next); reflexivity.
Qed.

(** X14: a successful [get_columns] made its three catalog calls for the
    table name and the schema that its answer carries, in the order columns,
    primary keys, imported keys, on one connection and under one cursor, and
    closed the cursor and then the connection. *)
Theorem get_columns_asks_the_catalog_for_one_table :
  forall (E : Environment) (a : columns_arguments) (past : list event)
         (next : handle) (r : SchemaDescriptor) (s' : state),
  get_columns E a (entry past next) = (Ok (ColumnsResponse r), s') ->
  trace s'
  = (past ++ [ connect_event E (Some next); OpenCursor next; GetMetaData next;
               GetColumns next (sd_schema r) (sd_table_name r) "%";
               GetPrimaryKeys next (sd_schema r) (sd_table_name r);
               GetImportedKeys next (sd_schema r) (sd_table_name r);
               CursorClose next; ConnectionClose next ])%list.
Proof.
  intros E a past next r s' H.
  destruct (GetColumnsArgs_new a) as [e|args] eqn:Ha;
    unfold_program; unfold connect_event; rewrite Ha in H; cbn in H;
    [discriminate H|].
  repeat split_in H.
  all: injection H as <- <-; cbn; repeat rewrite <- app_assoc; reflexivity.
Qed.

Lemma get_columns_catalog_calls_example :
  get_columns sample sample_columns_call (entry [] 0)
  = (Ok (ColumnsResponse sample_columns_result), sample_columns_final) /\
  trace sample_columns_final
  = ([] ++ [ connect_event sample (Some 0); OpenCursor 0; GetMetaData 0;
             GetColumns 0 (sd_schema sample_columns_result)
               (sd_table_name sample_columns_result) "%";
             GetPrimaryKeys 0 (sd_schema sample_columns_result)
               (sd_table_name sample_columns_result);
             GetImportedKeys 0 (sd_schema sample_columns_result)
               (sd_table_name sample_columns_result);
             CursorClose 0; ConnectionClose 0 ])%list.
Proof.
  assert (H : get_columns sample sample_columns_call (entry [] 0)
              = (Ok (ColumnsResponse sample_columns_result),
                 sample_columns_final))
    by (vm_compute; reflexivity).
  split; [exact H|].
  exact (get_columns_asks_the_catalog_for_one_table sample
           sample_columns_call [] 0 sample_columns_result
           sample_columns_final H).
Defined.

(** X15: when the catalog answers the columns but fails on the primary keys,
    [get_columns] answers "Failed to get columns: " followed by the driver's
    message; the columns read so far are dropped, the imported keys are not
    asked for, and the cursor and the connection are closed. *)
Theorem primary_key_failure_stops_the_description :
  forall (E : Environment) (a : columns_arguments) (args : GetColumnsArgs)
         (cols : list ColumnEntry) (msg : string)
         (past : list event) (next : handle),
  healthy E next = true ->
  GetColumnsArgs_new a = inr args ->
  table_columns E (gc_schema args) (table_name args) = inr cols ->
  primary_keys E (gc_schema args) (table_name args) = inl msg ->
  fst (get_columns E a (entry past next))
  = Ok (ErrorResponse ("Failed to get columns: " ++ msg)) /\
  trace (snd (get_columns E a (entry past next)))
  = (past ++ [ connect_event E (Some next); OpenCursor next; GetMetaData next;
               GetColumns next (gc_schema args) (table_name args) "%";
               GetPrimaryKeys next (gc_schema args) (table_name args);
               CursorClose next; ConnectionClose next ])%list.
Proof.
  intros E a args cols msg past next Hh Ha Hc Hp.
  destruct (healthy_facts E next Hh) as (H1 & H2 & H3 & H4 & H5 & H6 & H7 & H8).
  unfold_program. unfold connect_event. rewrite Ha. cbn.
  rewrite H1, H2, H3, H4. cbn. rewrite H5. cbn. rewrite H6. cbn.
  rewrite H8. cbn. rewrite Hc. cbn. rewrite Hp. cbn. rewrite H7. cbn.
  destruct (close_fails E next); cbn; repeat rewrite <- app_assoc;
    repeat split.
Qed.

Lemma primary_key_failure_example :
  healthy no_primary_keys 0 = true /\
  GetColumnsArgs_new sample_columns_call = inr sample_columns_args /\
  table_columns no_primary_keys (gc_schema sample_columns_args)
    (table_name sample_columns_args) = inr sample_columns /\
  primary_keys no_primary_keys (gc_schema sample_columns_args)
    (table_name sample_columns_args) = inl "denied" /\
  fst (get_columns no_primary_keys sample_columns_call (entry [] 0))
  = Ok (ErrorResponse ("Failed to get columns: " ++ "denied")) /\
  trace (snd (get_columns no_primary_keys sample_columns_call (entry [] 0)))
  = ([] ++ [ connect_event no_primary_keys (Some 0); OpenCursor 0;
             GetMetaData 0;
             GetColumns 0 (gc_schema sample_columns_args)
               (table_name sample_columns_args) "%";
             GetPrimaryKeys 0 (gc_schema sample_columns_args)
               (table_name sample_columns_args);
             CursorClose 0; ConnectionClose 0 ])%list.
Proof.
  assert (H : healthy no_primary_keys 0 = true) by (vm_compute; reflexivity).
  split; [exact H|]. split; [reflexivity|]. split; [reflexivity|].
  split; [reflexivity|].
  exact (primary_key_failure_stops_the_description no_primary_keys
           sample_columns_call sample_columns_args sample_columns "denied"
           [] 0 H eq_refl eq_refl eq_refl).
Defined.

(** ** Closing the cursor *)

(** X16: when [cursor.close] fails, its message decides the answer of every
    handler that got as far as opening a cursor, whatever happened under the
    cursor: [execute_query] answers "Query failed: " followed by that
    message, even if the statement ran and its rows were fetched; [get_tables]
    and [get_columns] answer that message alone, without their prefix, even
    if the catalog answered. *)
Theorem cursor_close_failure_decides_the_answer :
  forall (E : Environment) (msg : string) (past : list event) (next : handle),
  config_verified E (env_config E) = true ->
  connect_fails E (jdbc_driver (env_config E)) (jdbc_url (env_config E))
    [username (env_config E); password (env_config E)]
    (jdbc_driver_path (env_config E)) = None ->
  cursor_fails E next = None ->
  cursor_close_fails E next = Some msg ->
  (forall a args, QueryArgs_new a = inr args ->
     fst (execute_query E a (entry past next))
     = Ok (ErrorResponse ("Query failed: " ++ msg))) /\
  (forall a args, GetTablesArgs_new a = inr args ->
     fst (get_tables E a (entry past next)) = Ok (ErrorResponse msg)) /\
  (forall a args, GetColumnsArgs_new a = inr args ->
     fst (get_columns E a (entry past next)) = Ok (ErrorResponse msg)).
Proof.
  intros E msg past next Hcfg H5 H6 H7.
  destruct (config_verified_facts E Hcfg) as (H1 & H2 & H3 & H4).
  split; [|split]; intros a args Ha; unfold_program; rewrite Ha; cbn;
    rewrite H1, H2, H3, H4; cbn; rewrite H5; cbn; rewrite H6; cbn;
    repeat (split_goal; rewrite ?H7; cbn); rewrite ?H7; cbn;
    repeat (split_goal; rewrite ?H7; cbn); reflexivity.
Qed.

Lemma cursor_close_failure_example :
  config_verified sticky_cursor (env_config sticky_cursor) = true /\
  (forall a args, QueryArgs_new a = inr args ->
     fst (execute_query sticky_cursor a (entry [] 0))
     = Ok (ErrorResponse ("Query failed: " ++ "cursor gone"))) /\
  (forall a args, GetTablesArgs_new a = inr args ->
     fst (get_tables sticky_cursor a (entry [] 0))
     = Ok (ErrorResponse "cursor gone")) /\
  (forall a args, GetColumnsArgs_new a = inr args ->
     fst (get_columns sticky_cursor a (entry [] 0))
     = Ok (ErrorResponse "cursor gone")).
Proof.
  assert (H : config_verified sticky_cursor (env_config sticky_cursor) = true)
    by (vm_compute; reflexivity).
  split; [exact H|].
  exact (cursor_close_failure_decides_the_answer sticky_cursor "cursor gone"
           [] 0 H eq_refl eq_refl eq_refl).
Defined.

(** ** What an invocation asks of the driver *)

Ltac one_attempt :=
  eexists; split;
  [ repeat rewrite <- app_assoc;
    first [ reflexivity | symmetry; apply app_nil_r ]
  | cbn; split; [lia|]; try reflexivity ].

(** X17: one invocation asks the driver to connect at most once, so a failed
    connection is not tried again.  The [execute_query] handler sends the
    driver no statement, or exactly one, which is then the statement that
    passed validation; the [get_tables] and [get_columns] handlers send no
    statement at all. *)
Theorem one_connection_attempt_and_one_statement_at_most :
  forall (E : Environment) (past : list event) (next : handle),
  (forall a, exists evs,
     trace (snd (execute_query E a (entry past next))) = (past ++ evs)%list /\
     connect_attempts evs <= 1 /\
     (executed evs = [] \/
      exists args, QueryArgs_new a = inr args /\ executed evs = [query args])) /\
  (forall a, exists evs,
     trace (snd (get_tables E a (entry past next))) = (past ++ evs)%list /\
     connect_attempts evs <= 1 /\ executed evs = []) /\
  (forall a, exists evs,
     trace (snd (get_columns E a (entry past next))) = (past ++ evs)%list /\
     connect_attempts evs <= 1 /\ executed evs = []).
Proof.
  intros E past next. split; [|split]; intros a.
  - destruct (QueryArgs_new a) as [e|args] eqn:Ha;
      unfold_program; rewrite Ha; cbn.
    + one_attempt. left; reflexivity.
    + repeat split_goal; one_attempt;
        first [ left; reflexivity
              | right; exists args; split; reflexivity ].
  - destruct (GetTablesArgs_new a) as [e|args] eqn:Ha;
      unfold_program; rewrite Ha; cbn.
    + one_attempt.
    + repeat split_goal; one_attempt.
  - destruct (GetColumnsArgs_new a) as [e|args] eqn:Ha;
      unfold_program; rewrite Ha; cbn.
    + one_attempt.
    + repeat split_goal; one_attempt.
Qed.

Ltac keeps :=
  split;
  [ reflexivity
  | eexists; split;
    [ repeat rewrite <- app_assoc;
      first [ reflexivity | symmetry; apply app_nil_r ]
    | split; reflexivity ] ].

(** X18: a method of the client that is called while a connection is held
    uses that connection: it does not ask the driver for another one, it does
    not close it, and the client still holds it when the method returns or
    raises.  This holds for [execute_query], [get_tables] and
    [get_columns]; only [close] gives the connection up. *)
Theorem methods_keep_the_held_connection :
  forall (E : Environment) (config : JdbcConfig) (s : state) (h : handle),
  _connection s = Some h ->
  (forall q n, kept s h (snd (JdbcClient.execute_query E config q n s))) /\
  (forall sch sys, kept s h (snd (JdbcClient.get_tables E config sch sys s))) /\
  (forall t sch, kept s h (snd (JdbcClient.get_columns E config t sch s))).
Proof.
  intros E config [t f c b cur] h Hc. cbn in Hc. subst c.
  unfold kept. split; [|split]; intros; unfold_program; cbn;
    repeat split_goal; keeps.
Qed.

Lemma methods_keep_the_held_connection_example :
  _connection connected_once = Some 0 /\
  (forall q n,
     kept connected_once 0
       (snd (JdbcClient.execute_query sample sample_config q n connected_once))) /\
  (forall sch sys,
     kept connected_once 0
       (snd (JdbcClient.get_tables sample sample_config sch sys connected_once))) /\
  (forall t sch,
     kept connected_once 0
       (snd (JdbcClient.get_columns sample sample_config t sch connected_once))).
Proof.
  assert (H : _connection connected_once = Some 0) by (vm_compute; reflexivity).
  split; [exact H|].
  exact (methods_keep_the_held_connection sample sample_config
           connected_once 0 H).
Defined.

(** ** The error messages *)

Ltac message_form tac :=
  solve [tac] || (left; solve [tac]) || (right; message_form tac).

Ltac message_shape :=
  first [ assumption
        | eexists; split; [reflexivity|reflexivity]
        | eexists; split; [eassumption|cbn; reflexivity]
        | eexists; cbn; reflexivity
        | cbn; auto 6 ].

(** X19: an error record of the [execute_query] handler carries one of five
    kinds of message: the text of the validation error of its arguments; one
    of the four messages of the settings check; "Connection failed: " and the
    driver's message for the connection; "Query failed: " and the message of
    whatever failed under the cursor; or the complaint of the serialiser
    about the type of a value. *)
Theorem execute_query_error_messages :
  forall (E : Environment) (a : query_arguments) (past : list event)
         (next : handle) (msg : string),
  fst (execute_query E a (entry past next)) = Ok (ErrorResponse msg) ->
  (exists e, QueryArgs_new a = inl e /\ msg = str E e) \/
  In msg (config_messages (env_config E)) \/
  (exists m,
     connect_fails E (jdbc_driver (env_config E)) (jdbc_url (env_config E))
       [username (env_config E); password (env_config E)]
       (jdbc_driver_path (env_config E)) = Some m /\
     msg = "Connection failed: " ++ m) \/
  (exists m, msg = "Query failed: " ++ m) \/
  (exists t, msg = "Object of type " ++ t ++ " is not JSON serializable").
Proof.
  intros E a past next msg H.
  destruct (QueryArgs_new a) as [e|args] eqn:Ha;
    unfold_program; unfold config_messages; rewrite Ha in H; cbn in H.
  - injection H as <-. left. eexists. split; reflexivity.
  - repeat split_in H.
    all: injection H as <-; message_form message_shape.
Qed.

Lemma execute_query_error_messages_example :
  fst (execute_query rejecting sample_query (entry [] 0))
  = Ok (ErrorResponse "Query failed: no such table") /\
  ((exists e, QueryArgs_new sample_query = inl e
              /\ "Query failed: no such table" = str rejecting e) \/
   In "Query failed: no such table" (config_messages (env_config rejecting)) \/
   (exists m,
      connect_fails rejecting (jdbc_driver (env_config rejecting))
        (jdbc_url (env_config rejecting))
        [username (env_config rejecting); password (env_config rejecting)]
        (jdbc_driver_path (env_config rejecting)) = Some m /\
      "Query failed: no such table" = "Connection failed: " ++ m) \/
   (exists m, "Query failed: no such table" = "Query failed: " ++ m) \/
   (exists t, "Query failed: no such table"
              = "Object of type " ++ t ++ " is not JSON serializable")).
Proof.
  assert (H : fst (execute_query rejecting sample_query (entry [] 0))
              = Ok (ErrorResponse "Query failed: no such table"))
    by (vm_compute; reflexivity).
  split; [exact H|].
  exact (execute_query_error_messages rejecting sample_query [] 0
           "Query failed: no such table" H).
Defined.

(** X20: an error record of the [get_tables] handler carries the text of the
    validation error of its arguments, one of the four messages of the
    settings check, "Connection failed: " and the driver's message for the
    connection, "Failed to get tables: " and the message of what failed
    before the listing was complete, or the bare message of a failed
    [cursor.close]. *)
Theorem get_tables_error_messages :
  forall (E : Environment) (a : tables_arguments) (past : list event)
         (next : handle) (msg : string),
  fst (get_tables E a (entry past next)) = Ok (ErrorResponse msg) ->
  (exists e, GetTablesArgs_new a = inl e /\ msg = str E e) \/
  In msg (config_messages (env_config E)) \/
  (exists m,
     connect_fails E (jdbc_driver (env_config E)) (jdbc_url (env_config E))
       [username (env_config E); password (env_config E)]
       (jdbc_driver_path (env_config E)) = Some m /\
     msg = "Connection failed: " ++ m) \/
  (exists m, msg = "Failed to get tables: " ++ m) \/
  cursor_close_fails E next = Some msg.
Proof.
  intros E a past next msg H.
  destruct (GetTablesArgs_new a) as [e|args] eqn:Ha;
    unfold_program; unfold config_messages; rewrite Ha in H; cbn in H.
  - injection H as <-. left. eexists. split; reflexivity.
  - repeat split_in H.
    all: injection H as <-; message_form message_shape.
Qed.

Lemma get_tables_error_messages_example :
  fst (get_tables sticky_cursor sample_tables_call (entry [] 0))
  = Ok (ErrorResponse "cursor gone") /\
  ((exists e, GetTablesArgs_new sample_tables_call = inl e
              /\ "cursor gone" = str sticky_cursor e) \/
   In "cursor gone" (config_messages (env_config sticky_cursor)) \/
   (exists m,
      connect_fails sticky_cursor (jdbc_driver (env_config sticky_cursor))
        (jdbc_url (env_config sticky_cursor))
        [username (env_config sticky_cursor);
         password (env_config sticky_cursor)]
        (jdbc_driver_path (env_config sticky_cursor)) = Some m /\
      "cursor gone" = "Connection failed: " ++ m) \/
   (exists m, "cursor gone" = "Failed to get tables: " ++ m) \/
   cursor_close_fails sticky_cursor 0 = Some "cursor gone").
Proof.
  assert (H : fst (get_tables sticky_cursor sample_tables_call (entry [] 0))
              = Ok (ErrorResponse "cursor gone"))
    by (vm_compute; reflexivity).
  split; [exact H|].
  exact (get_tables_error_messages sticky_cursor sample_tables_call [] 0
           "cursor gone" H).
Defined.

(** X21: an error record of the [get_columns] handler carries the text of
    the validation error of its arguments, one of the four messages of the
    settings check, "Connection failed: " and the driver's message for the
    connection, "Failed to get columns: " and the message of what failed
    before the description was complete, or the bare message of a failed
    [cursor.close]. *)
Theorem get_columns_error_messages :
  forall (E : Environment) (a : columns_arguments) (past : list event)
         (next : handle) (msg : string),
  fst (get_columns E a (entry past next)) = Ok (ErrorResponse msg) ->
  (exists e, GetColumnsArgs_new a = inl e /\ msg = str E e) \/
  In msg (config_messages (env_config E)) \/
  (exists m,
     connect_fails E (jdbc_driver (env_config E)) (jdbc_url (env_config E))
       [username (env_config E); password (env_config E)]
       (jdbc_driver_path (env_config E)) = Some m /\
     msg = "Connection failed: " ++ m) \/
  (exists m, msg = "Failed to get columns: " ++ m) \/
  cursor_close_fails E next = Some msg.
Proof.
  intros E a past next msg H.
  destruct (GetColumnsArgs_new a) as [e|args] eqn:Ha;
    unfold_program; unfold config_messages; rewrite Ha in H; cbn in H.
  - injection H as <-. left. eexists. split; reflexivity.
  - repeat split_in H.
    all: injection H as <-; message_form message_shape.
Qed.

Lemma get_columns_error_messages_example :
  fst (get_columns no_primary_keys sample_columns_call (entry [] 0))
  = Ok (ErrorResponse "Failed to get columns: denied") /\
  ((exists e, GetColumnsArgs_new sample_columns_call = inl e
              /\ "Failed to get columns: denied" = str no_primary_keys e) \/
   In "Failed to get columns: denied"
      (config_messages (env_config no_primary_keys)) \/
   (exists m,
      connect_fails no_primary_keys (jdbc_driver (env_config no_primary_keys))
        (jdbc_url (env_config no_primary_keys))
        [username (env_config no_primary_keys);
         password (env_config no_primary_keys)]
        (jdbc_driver_path (env_config no_primary_keys)) = Some m /\
      "Failed to get columns: denied" = "Connection failed: " ++ m) \/
   (exists m, "Failed to get columns: denied" = "Failed to get columns: " ++ m) \/
   cursor_close_fails no_primary_keys 0 = Some "Failed to get columns: denied").
Proof.
  assert (H : fst (get_columns no_primary_keys sample_columns_call (entry [] 0))
              = Ok (ErrorResponse "Failed to get columns: denied"))
    by (vm_compute; reflexivity).
  split; [exact H|].
  exact (get_columns_error_messages no_primary_keys sample_columns_call [] 0
           "Failed to get columns: denied" H).
Defined.
